(** * Supabase CRUD tool: the bulk-import pipeline and the store helpers

    A shallow embedding of [src/app.py].  The script talks to three
    outside parties: the Supabase client (a remote store), the Streamlit
    screen (notices shown to the operator, widget values read back) and
    pandas (the frames the upload tab builds and rebinds).  Each of them
    is kept explicit: the store is an interface with its own state, the
    screen is a log of notices, and the frames of the upload tab live in
    an object store so that rebinding a name and writing into an object
    stay different things. *)

From stdpp Require Import gmap strings list pretty.

Set Default Proof Using "Type".
Open Scope string_scope.
Open Scope nat_scope.
Open Scope list_scope.

(** ** Scalars and records *)

(** A cell of a frame or a field of a record.  [VNull] stands for every
    value pandas counts as missing ([None], [NaN], [NaT]); floats other
    than [NaN] are not needed by the code modelled here. *)
Inductive value :=
  | VNull
  | VStr (s : string)
  | VInt (z : Z)
  | VBool (b : bool).

#[global] Instance value_eq_dec : EqDecision value.
Proof. solve_decision. Defined.

(** A Python [dict] with string keys: insertion-ordered, keys distinct. *)
Definition record := list (string * value).

Fixpoint dict_get (k : string) (d : record) : option value :=
  match d with
  | [] => None
  | (k', v) :: d' => if decide (k' = k) then Some v else dict_get k d'
  end.

Definition keys (d : record) : list string := d.*1.

(** [pd.isna] *)
Definition isna (v : value) : bool :=
  match v with VNull => true | _ => false end.

(** ** Exceptions *)

(** Every handler of the script only looks at [str(e)], so an exception
    is its message. *)
Inductive outcome (A : Type) :=
  | Returned (a : A)
  | Raised (e : string).
Arguments Returned {A} a.
Arguments Raised {A} e.

(** ** pandas *)

Module pd.

(** A column taken out of a frame: row labels with their cells. *)
Definition Series := list (nat * value).

(** A frame, row by row: the column names and, for every row, its index
    label and its cells (one per column, in column order). *)
Record DataFrame := mkDataFrame {
  columns : list string;
  body : list (nat * list value)
}.

(** [pd.DataFrame()] *)
Definition DataFrame_new : DataFrame := mkDataFrame [] [].

(** [len(df)] *)
Definition len (df : DataFrame) : nat := length (body df).

(** [df.index] *)
Definition index (df : DataFrame) : list nat := (body df).*1.

(** [df.empty]: some axis has length zero. *)
Definition empty (df : DataFrame) : bool :=
  bool_decide (columns df = []) || bool_decide (body df = []).

(** Frames the loader and the store hand over: distinct column names,
    rows as wide as the header, distinct row labels. *)
Record wf (df : DataFrame) : Prop := {
  wf_columns : NoDup (columns df);
  wf_width : Forall (λ r, length r.2 = length (columns df)) (body df);
  wf_index : NoDup (index df)
}.

Fixpoint position (c : string) (cs : list string) : option nat :=
  match cs with
  | [] => None
  | c' :: cs' => if decide (c' = c) then Some 0 else S <$> position c cs'
  end.

(** Column names of a list of dicts, in order of first appearance. *)
Fixpoint union_keys (seen : list string) (rs : list record) : list string :=
  match rs with
  | [] => seen
  | r :: rs' =>
      union_keys (seen ++ remove_dups (filter (λ k, k ∉ seen) (keys r))) rs'
  end.

(** [pd.DataFrame(list_of_dicts)]: a [RangeIndex], absent keys become
    [NaN]. *)
Definition DataFrame_of_records (rs : list record) : DataFrame :=
  let cs := union_keys [] rs in
  mkDataFrame cs
    (imap (λ i r, (i, (λ c, default VNull (dict_get c r)) <$> cs)) rs).

(** [df[c]]; [KeyError] when there is no such column. *)
Definition getitem (df : DataFrame) (c : string) : outcome Series :=
  match position c (columns df) with
  | None => Raised ("'" +:+ c +:+ "'")
  | Some i => Returned ((λ r, (r.1, default VNull (r.2 !! i))) <$> body df)
  end.

(** [DataFrame._ensure_valid_index]: a frame without rows takes over the
    index of the first non-empty column written into it; the columns it
    already has are filled with [NaN]. *)
Definition ensure_valid_index (df : DataFrame) (s : Series) : DataFrame :=
  if bool_decide (len df = 0) && negb (bool_decide (length s = 0)) then
    mkDataFrame (columns df)
      ((λ l, (l, replicate (length (columns df)) VNull)) <$> s.*1)
  else df.

Fixpoint series_get (l : nat) (s : Series) : option value :=
  match s with
  | [] => None
  | (l', v) :: s' => if decide (l' = l) then Some v else series_get l s'
  end.

(** [_reindex_for_setitem]: cells are taken as they come when the labels
    agree (or the frame has no row); otherwise the column is aligned on
    the frame's labels, which pandas refuses when the column's labels
    repeat. *)
Definition reindex_for_setitem (s : Series) (idx : list nat)
  : outcome (list value) :=
  if bool_decide (s.*1 = idx) || bool_decide (idx = []) then Returned s.*2
  else if bool_decide (NoDup s.*1) then
    Returned ((λ l, default VNull (series_get l s)) <$> idx)
  else Raised "cannot reindex on an axis with duplicate labels".

Definition set_column (df : DataFrame) (c : string) (vs : list value)
  : DataFrame :=
  match position c (columns df) with
  | Some i =>
      mkDataFrame (columns df)
        (zip_with (λ r v, (r.1, <[i:=v]> r.2)) (body df) vs)
  | None =>
      mkDataFrame (columns df ++ [c])
        (zip_with (λ r v, (r.1, r.2 ++ [v])) (body df) vs)
  end.

(** [df[c] = s] *)
Definition setitem (df : DataFrame) (c : string) (s : Series)
  : outcome DataFrame :=
  let df' := ensure_valid_index df s in
  match reindex_for_setitem s (index df') with
  | Raised e => Raised e
  | Returned vs => Returned (set_column df' c vs)
  end.

Definition complete (r : nat * list value) : Prop :=
  Forall (λ v, isna v = false) r.2.

#[global] Instance complete_dec r : Decision (complete r).
Proof. unfold complete. apply _. Defined.

(** [df.dropna()]: rows (axis 0) with any missing cell go. *)
Definition dropna (df : DataFrame) : DataFrame :=
  mkDataFrame (columns df) (filter complete (body df)).

(** [df.head(n)] for [n >= 0]. *)
Definition head (n : nat) (df : DataFrame) : DataFrame :=
  mkDataFrame (columns df) (take n (body df)).

(** [df.to_dict('records')] *)
Definition to_dict_records (df : DataFrame) : list record :=
  (λ r, zip (columns df) r.2) <$> body df.

(** [pd.read_csv] on a parsed file: header and rows, labelled
    [0..n-1]. *)
Definition of_rows (header : list string) (rows : list (list value))
  : DataFrame :=
  mkDataFrame header (imap (λ i r, (i, r)) rows).

End pd.

(** ** The Supabase client *)

(** What [insert] is given: one dict or a list of dicts. *)
Inductive payload :=
  | One (row : record)
  | Many (rows : list record).

(** A query as it stands when [.execute()] is called on it. *)
Inductive request :=
  | Select (table : string) (limit : nat)
  | Insert (table : string) (json : payload)
  | Update (table : string) (json : record) (id_column : string) (id_value : value)
  | Delete (table : string) (id_column : string) (id_value : value).

(** [.execute()] either raises (left, the text of the exception) or
    answers with [response.data] (right).  The remote database is a state
    of the client's own. *)
Class Supabase (DB : Type) := {
  execute : request → DB → (string + list record) * DB
}.

(** ** The Streamlit screen *)

Inductive level := Error | Warning | Info | Success.

(** What a notice shows.  A listing of a Python [set] is kept as the set:
    the order in which [', '.join] walks it is not fixed by the language. *)
Inductive text :=
  | Plain (s : string)
  | Columns (label : string) (names : list string)
  | ColumnSet (label : string) (names : gset string).

Inductive notice :=
  | Show (l : level) (t : text)
  | Balloons.

(** The set of names a notice lists, if it lists any. *)
Definition listed_names (n : notice) : option (gset string) :=
  match n with
  | Show _ (Columns _ names) => Some (list_to_set names)
  | Show _ (ColumnSet _ names) => Some names
  | _ => None
  end.

(** ** Running the script *)

Section script.
Context {DB : Type} {supabase : Supabase DB}.

(** Everything a run can read or change: the remote database, the queries
    executed so far, the notices shown so far, and the frames allocated by
    the upload tab (a reference is a position in [objects]). *)
Record world := mkWorld {
  db : DB;
  wire : list request;
  screen : list notice;
  objects : list pd.DataFrame
}.

Definition py (A : Type) : Type := world → outcome A * world.

Definition ret {A} (a : A) : py A := λ w, (Returned a, w).

Definition raise {A} (e : string) : py A := λ w, (Raised e, w).

Definition bind {A B} (m : py A) (k : A → py B) : py B :=
  λ w, match m w with
       | (Returned a, w') => k a w'
       | (Raised e, w') => (Raised e, w')
       end.

(** [try: body except Exception as e: handler(str(e))] *)
Definition try_except {A} (body : py A) (handler : string → py A) : py A :=
  λ w, match body w with
       | (Returned a, w') => (Returned a, w')
       | (Raised e, w') => handler e w'
       end.

Definition lift {A} (o : outcome A) : py A := λ w, (o, w).

Local Notation "x <- c1 ;; c2" := (bind c1 (λ x, c2))
  (at level 100, c1 at next level, right associativity).
Local Notation "c1 ;; c2" := (bind c1 (λ _, c2))
  (at level 100, right associativity).

(** [supabase.table(...)....execute()] *)
Definition run_query (q : request) : py (list record) :=
  λ w, let '(answer, db') := execute q (db w) in
       let w' := mkWorld db' (wire w ++ [q]) (screen w) (objects w) in
       match answer with
       | inl e => (Raised e, w')
       | inr data => (Returned data, w')
       end.

Definition st_show (l : level) (t : text) : py unit :=
  λ w, (Returned (), mkWorld (db w) (wire w) (screen w ++ [Show l t]) (objects w)).

Definition st_error (s : string) : py unit := st_show Error (Plain s).
Definition st_warning (s : string) : py unit := st_show Warning (Plain s).
Definition st_info (s : string) : py unit := st_show Info (Plain s).
Definition st_success (s : string) : py unit := st_show Success (Plain s).

Definition st_balloons : py unit :=
  λ w, (Returned (), mkWorld (db w) (wire w) (screen w ++ [Balloons]) (objects w)).

(** A new object; the reference to it is returned. *)
Definition alloc (df : pd.DataFrame) : py nat :=
  λ w, (Returned (length (objects w)),
        mkWorld (db w) (wire w) (screen w) (objects w ++ [df])).

Definition deref (r : nat) : py pd.DataFrame :=
  λ w, match objects w !! r with
       | Some df => (Returned df, w)
       | None => (Raised "dangling reference", w)
       end.

(** Writing into the object a reference points to. *)
Definition store (r : nat) (df : pd.DataFrame) : py unit :=
  λ w, (Returned (),
        mkWorld (db w) (wire w) (screen w) (<[r:=df]> (objects w))).

Definition get_table_data (table_name : string) (limit : nat)
  : py pd.DataFrame :=
  try_except
    (data <- run_query (Select table_name limit) ;;
     ret (match data with
          | [] => pd.DataFrame_new
          | _ :: _ => pd.DataFrame_of_records data
          end))
    (λ e, st_error ("Error fetching data: " +:+ e) ;; ret pd.DataFrame_new).

Definition get_table_columns (table_name : string) : py (list string) :=
  try_except
    (data <- run_query (Select table_name 1) ;;
     ret (match data with
          | [] => []
          | row :: _ => keys row
          end))
    (λ e, st_error ("Error fetching columns: " +:+ e) ;; ret []).

Definition insert_record (table_name : string) (data : record)
  : py (bool * string) :=
  try_except
    (run_query (Insert table_name (One data)) ;;
     ret (true, "Record inserted successfully!"))
    (λ e, ret (false, "Error inserting record: " +:+ e)).

Definition bulk_insert_records (table_name : string) (dataframe : nat)
  : py (bool * string) :=
  try_except
    (df <- deref dataframe ;;
     let records := pd.to_dict_records df in
     run_query (Insert table_name (Many records)) ;;
     ret (true, "Successfully inserted " +:+ pretty (length records)
                  +:+ " records!"))
    (λ e, ret (false, "Error in bulk insert: " +:+ e)).

Definition update_record (table_name : string) (record_id : value)
    (id_column : string) (data : record) : py (bool * string) :=
  try_except
    (run_query (Update table_name data id_column record_id) ;;
     ret (true, "Record updated successfully!"))
    (λ e, ret (false, "Error updating record: " +:+ e)).

Definition delete_record (table_name : string) (record_id : value)
    (id_column : string) : py (bool * string) :=
  try_except
    (run_query (Delete table_name id_column record_id) ;;
     ret (true, "Record deleted successfully!"))
    (λ e, ret (false, "Error deleting record: " +:+ e)).


(** *** Python helpers used by the forms *)

(** [d[k] = v] on an insertion-ordered dict. *)
Fixpoint dict_set {A} (k : string) (v : A) (d : list (string * A))
  : list (string * A) :=
  match d with
  | [] => [(k, v)]
  | (k', v') :: d' =>
      if decide (k' = k) then (k, v) :: d' else (k', v') :: dict_set k v d'
  end.

(** [str.lower] on the ASCII letters.  No character outside ASCII
    lowercases to a letter of [id], [created_at] or [updated_at], so this
    is enough to decide membership in [auto_generated]. *)
Definition lower_ascii (a : Ascii.ascii) : Ascii.ascii :=
  let n := Ascii.nat_of_ascii a in
  if (65 <=? n) && (n <=? 90) then Ascii.ascii_of_nat (n + 32) else a.

Fixpoint lower (s : string) : string :=
  match s with
  | EmptyString => EmptyString
  | String a s' => String (lower_ascii a) (lower s')
  end.

Definition auto_generated : list string := ["id"; "created_at"; "updated_at"].

(** A text input's value sent as a field. *)
Definition as_record (d : list (string * string)) : record :=
  prod_map id VStr <$> d.

(** [for x in xs: body(x)] *)
Fixpoint for_each {A} (xs : list A) (body : A → py unit) : py unit :=
  match xs with
  | [] => ret ()
  | x :: xs' => body x ;; for_each xs' body
  end.

(** Report of a helper shown to the operator. *)
Definition report (celebrate : bool) (r : bool * string) : py unit :=
  if r.1 then
    st_success r.2 ;; (if celebrate then st_balloons else ret ())
  else st_error r.2.

(** *** Tab 2: Add Record *)

(** The form: one text input per column that is not auto-generated;
    [typed] is what each input holds when the form is submitted. *)
Definition add_record_form (columns : list string) (typed : string → string)
  : list (string * string) :=
  foldl (λ record_data col,
           if bool_decide (lower col ∈ auto_generated) then record_data
           else dict_set col (typed col) record_data)
        [] columns.

Definition add_clean_data (record_data : list (string * string))
  : list (string * string) :=
  filter (λ kv, kv.2 ≠ "" ∧ lower kv.1 ∉ auto_generated) record_data.

Definition add_record_submit (table_name : string)
    (record_data : list (string * string)) : py unit :=
  let clean_data := add_clean_data record_data in
  match clean_data with
  | [] => st_warning "Please fill in at least one field"
  | _ :: _ =>
      r <- insert_record table_name (as_record clean_data) ;;
      report true r
  end.

Definition add_record_tab (table_name : string) (typed : string → string)
    (submitted : bool) : py unit :=
  columns <- get_table_columns table_name ;;
  match columns with
  | [] =>
      st_error "Could not retrieve table columns. Please check if the table exists."
  | _ :: _ =>
      st_show Info (Columns "Available columns" columns) ;;
      let record_data := add_record_form columns typed in
      if submitted then add_record_submit table_name record_data else ret ()
  end.

(** *** Tab 3: Update Record *)

Definition update_record_form (columns : list string) (id_column : string)
    (typed : string → string) : list (string * string) :=
  foldl (λ update_data col,
           if bool_decide (col = id_column) then update_data
           else dict_set col (typed col) update_data)
        [] columns.

Definition update_clean_data (id_column : string)
    (update_data : list (string * string)) : list (string * string) :=
  filter (λ kv, kv.2 ≠ "" ∧ kv.1 ≠ id_column) update_data.

Definition update_record_submit (table_name : string) (record_id : value)
    (id_column : string) (update_data : list (string * string)) : py unit :=
  let clean_data := update_clean_data id_column update_data in
  match clean_data with
  | [] => st_warning "No changes detected"
  | _ :: _ =>
      r <- update_record table_name record_id id_column (as_record clean_data) ;;
      report true r
  end.

(** *** Tab 5: Bulk Upload *)

(** Frames of this tab are objects: a name holds a reference, a method
    such as [dropna] or [head] answers with a new object, and only
    [df[c] = s] writes into an existing one. *)

Definition len_obj (r : nat) : py nat :=
  df <- deref r ;; ret (pd.len df).

Definition columns_obj (r : nat) : py (list string) :=
  df <- deref r ;; ret (pd.columns df).

Definition getitem_obj (r : nat) (c : string) : py pd.Series :=
  df <- deref r ;; lift (pd.getitem df c).

Definition setitem_obj (r : nat) (c : string) (s : pd.Series) : py unit :=
  df <- deref r ;;
  df' <- lift (pd.setitem df c s) ;;
  store r df'.

Definition dropna_obj (r : nat) : py nat :=
  df <- deref r ;; alloc (pd.dropna df).

Definition head_obj (r : nat) (n : nat) : py nat :=
  df <- deref r ;; alloc (pd.head n df).

(** What the widgets of the tab hold during one run of the script. *)
Record upload_widgets := mkWidgets {
  map_columns : bool;            (* "Map columns manually" *)
  chosen : string → nat;         (* per file column: option picked in its selectbox *)
  apply_mapping : bool;          (* "Apply Mapping" pressed *)
  remove_empty : bool;           (* "Remove rows with empty values" *)
  upload_limit_entry : option nat; (* "Limit rows to upload", if edited *)
  upload : bool                  (* "Upload to Supabase" pressed *)
}.

(** [st.selectbox(label, options)]: the option picked, the first one when
    nothing was picked. *)
Definition selectbox (options : list string) (picked : nat) : string :=
  default (default "" (head options)) (options !! picked).

(** [st.number_input(min_value, max_value, value)]: refuses a default
    outside its bounds; otherwise holds the operator's entry, which the
    widget keeps within the bounds, or the default. *)
Definition number_input (min_value max_value value : nat) (entry : option nat)
  : py nat :=
  if bool_decide (value < min_value) then
    raise ("The `value` " +:+ pretty value +:+ " is less than the `min_value` "
             +:+ pretty min_value +:+ ".")
  else if bool_decide (max_value < value) then
    raise ("The `value` " +:+ pretty value +:+ " is greater than the `max_value` "
             +:+ pretty max_value +:+ ".")
  else
    match entry with
    | Some n =>
        if bool_decide (min_value ≤ n ≤ max_value) then ret n else ret value
    | None => ret value
    end.

(** Lines 380-388: the column lists put on screen. *)
Definition show_columns (table_columns file_columns : list string) : py unit :=
  st_show Info (Columns "Table columns" table_columns) ;;
  st_show Info (Columns "File columns" file_columns) ;;
  let matching_cols : gset string :=
    list_to_set file_columns ∩ list_to_set table_columns in
  if bool_decide (matching_cols = ∅) then ret ()
  else st_show Success (ColumnSet "Matching columns" matching_cols).

(** Lines 394-404: one selectbox per file column. *)
Definition column_mapping (table_columns file_columns : list string)
    (chosen : string → nat) : list (string * string) :=
  foldl (λ m file_col,
           dict_set file_col
             (selectbox ("Skip" :: table_columns) (chosen file_col)) m)
        [] file_columns.

(** Lines 408-412: the frame built by "Apply Mapping". *)
Definition apply_column_mapping (mapping : list (string * string))
    (df_upload : nat) : py nat :=
  mapped_df <- alloc pd.DataFrame_new ;;
  for_each mapping (λ kv,
    if bool_decide (kv.2 = "Skip") then ret ()
    else s <- getitem_obj df_upload kv.1 ;; setitem_obj mapped_df kv.2 s) ;;
  ret mapped_df.

(** Lines 391-414. *)
Definition map_columns_manually (w : upload_widgets)
    (table_columns file_columns : list string) (df_upload : nat) : py nat :=
  if map_columns w then
    let mapping := column_mapping table_columns file_columns (chosen w) in
    if apply_mapping w then
      mapped_df <- apply_column_mapping mapping df_upload ;;
      st_success "Column mapping applied!" ;;
      ret mapped_df
    else ret df_upload
  else ret df_upload.

(** Lines 421-434: the cleaning options. *)
Definition clean_data_options (w : upload_widgets) (df_upload : nat) : py nat :=
  df_upload <- (if remove_empty w then
                  cleaned <- dropna_obj df_upload ;;
                  n <- len_obj cleaned ;;
                  st_info ("Rows after cleaning: " +:+ pretty n) ;;
                  ret cleaned
                else ret df_upload) ;;
  n <- len_obj df_upload ;;
  upload_limit <- number_input 1 n n (upload_limit_entry w) ;;
  head_obj df_upload upload_limit.

(** Lines 441-448. *)
Definition upload_button (w : upload_widgets) (table_name : string)
    (df_upload : nat) : py unit :=
  if upload w then
    r <- bulk_insert_records table_name df_upload ;;
    report true r
  else ret ().

(** Lines 361-458.  [parsed] is what [pd.read_csv] or [pd.read_excel] makes
    of the uploaded file: a header with rows, or an exception.  Headers,
    previews of frames and the "Clear" button, which asks for a rerun once
    everything else is done, reach neither the store nor the frames and
    are left out. *)
Definition bulk_upload (table_name : string)
    (parsed : outcome (list string * list (list value)))
    (w : upload_widgets) : py unit :=
  try_except
    (content <- lift parsed ;;
     df_upload <- alloc (pd.of_rows content.1 content.2) ;;
     n <- len_obj df_upload ;;
     st_success ("✅ File loaded successfully! Found " +:+ pretty n +:+ " rows") ;;
     table_columns <- get_table_columns table_name ;;
     match table_columns with
     | [] => st_error "Could not retrieve table columns"
     | _ :: _ =>
         file_columns <- columns_obj df_upload ;;
         show_columns table_columns file_columns ;;
         df_upload <- map_columns_manually w table_columns file_columns df_upload ;;
         df_upload <- clean_data_options w df_upload ;;
         upload_button w table_name df_upload
     end)
    (λ e, st_error ("Error reading file: " +:+ e)).

End script.

(** ** An in-memory store

    A stand-in for the remote database, used to run the script on concrete
    inputs: named tables of records; a query on a table that does not
    exist raises. *)

Definition tables : Type := list (string * list record).

Fixpoint table_get (t : string) (d : tables) : option (list record) :=
  match d with
  | [] => None
  | (t', rows) :: d' => if decide (t' = t) then Some rows else table_get t d'
  end.

Definition matches (id_column : string) (id_value : value) (row : record)
  : bool :=
  bool_decide (dict_get id_column row = Some id_value).

Definition patch (json row : record) : record :=
  foldl (λ r kv, dict_set kv.1 kv.2 r) row json.

Definition memory_execute (q : request) (d : tables)
  : (string + list record) * tables :=
  let missing t := (inl ("relation " +:+ t +:+ " does not exist"), d) in
  match q with
  | Select t n =>
      match table_get t d with
      | None => missing t
      | Some rows => (inr (take n rows), d)
      end
  | Insert t json =>
      match table_get t d with
      | None => missing t
      | Some rows =>
          let new := match json with One r => [r] | Many rs => rs end in
          (inr new, dict_set t (rows ++ new) d)
      end
  | Update t json c v =>
      match table_get t d with
      | None => missing t
      | Some rows =>
          (inr (patch json <$> filter (λ r, matches c v r = true) rows),
           dict_set t ((λ r, if matches c v r then patch json r else r) <$> rows) d)
      end
  | Delete t c v =>
      match table_get t d with
      | None => missing t
      | Some rows =>
          (inr (filter (λ r, matches c v r = true) rows),
           dict_set t (filter (λ r, matches c v r = false) rows) d)
      end
  end.

#[local] Instance memory_store : Supabase tables :=
  {| execute := memory_execute |}.

(** A run starts with nothing on the wire or on screen and no frame. *)
Definition fresh_run (d : tables) : world := mkWorld d [] [] [].

(** ** What the cleaning options come to *)

(** The frame left after the checkbox. *)
Definition cleaned_frame (w : upload_widgets) (df : pd.DataFrame)
  : pd.DataFrame :=
  if remove_empty w then pd.dropna df else df.

(** The value of "Limit rows to upload" for a frame of [n >= 1] rows. *)
Definition held_limit (entry : option nat) (n : nat) : nat :=
  match entry with
  | Some k => if bool_decide (1 ≤ k ≤ n) then k else n
  | None => n
  end.

(** ** What "Apply Mapping" comes to *)

(** The cells of a column, top to bottom. *)
Definition column (df : pd.DataFrame) (c : string) : option (list value) :=
  match pd.position c (pd.columns df) with
  | Some i => Some ((λ r, default VNull (r.2 !! i)) <$> pd.body df)
  | None => None
  end.

(** Every row is as wide as the header. *)
Definition widths_ok (df : pd.DataFrame) : Prop :=
  Forall (λ r : nat * list value, length r.2 = length (pd.columns df))
    (pd.body df).

(** The loop of lines 409-411 on frames rather than on references. *)
Fixpoint mapped_frame (df : pd.DataFrame) (mapping : list (string * string))
    (mapped_df : pd.DataFrame) : outcome pd.DataFrame :=
  match mapping with
  | [] => Returned mapped_df
  | kv :: rest =>
      if bool_decide (kv.2 = "Skip") then mapped_frame df rest mapped_df
      else
        match pd.getitem df kv.1 with
        | Raised e => Raised e
        | Returned s =>
            match pd.setitem mapped_df kv.2 s with
            | Raised e => Raised e
            | Returned mapped_df' => mapped_frame df rest mapped_df'
            end
        end
  end.

(** The file column a destination is filled from last. *)
Definition last_source (mapping : list (string * string)) (c : string)
  : option string :=
  fst <$> last (filter (λ kv, kv.2 = c) mapping).

(** What holds of the frame under construction once the pairs [done] of
    the mapping have been gone through. *)
Record mapping_inv (df : pd.DataFrame) (done : list (string * string))
    (mapped_df : pd.DataFrame) : Prop := {
  inv_NoDup : NoDup (pd.columns mapped_df);
  inv_widths : widths_ok mapped_df;
  inv_empty : pd.columns mapped_df = [] → pd.body mapped_df = [];
  inv_index : pd.columns mapped_df ≠ [] → pd.index mapped_df = pd.index df;
  inv_columns :
    ∀ c, c ∈ pd.columns mapped_df ↔ c ≠ "Skip" ∧ ∃ f, (f, c) ∈ done;
  inv_source :
    ∀ c, c ∈ pd.columns mapped_df →
         ∃ f, last_source done c = Some f ∧ column mapped_df c = column df f
}.

(** ** Sample inputs *)

(** A file of ten rows with one column the table does not have. *)
Definition customers_file : list string * list (list value) :=
  (["name"; "email"; "extra"],
   (λ i, [VStr ("user" +:+ pretty i);
          VStr ("user" +:+ pretty i +:+ "@example.com");
          VInt (Z.of_nat i)]) <$> seq 0 10).

Definition customers_db : tables :=
  [("customers", [[("name", VStr "Ada"); ("email", VStr "ada@example.com")]])].

(** No manual mapping, no cleaning, limit 10, "Upload" pressed. *)
Definition plain_upload : upload_widgets :=
  mkWidgets false (λ _, 0) false false (Some 10) true.

(** "Map columns manually" ticked, every selectbox left on its first
    option, "Apply Mapping" pressed. *)
Definition skip_all : upload_widgets :=
  mkWidgets true (λ _, 0) true false None false.

(** Columns [a] and [b] both sent to [x], [c] skipped. *)
Definition merge_a_b : upload_widgets :=
  mkWidgets true (λ f, if bool_decide (f = "c") then 0 else 1) true false None false.

(** Cleaning on, limit 2. *)
Definition clean_two : upload_widgets :=
  mkWidgets false (λ _, 0) false true (Some 2) false.

Definition three_columns : pd.DataFrame :=
  pd.of_rows ["a"; "b"; "c"]
    [[VInt 1; VInt 2; VInt 3]; [VInt 4; VInt 5; VInt 6]].

(** Four records, the second with a missing field. *)
Definition four_records : pd.DataFrame :=
  pd.of_rows ["name"; "email"]
    [[VStr "Ada"; VStr "ada@example.com"];
     [VStr "Bob"; VNull];
     [VStr "Cy"; VStr "cy@example.com"];
     [VStr "Di"; VStr "di@example.com"]].

(** A table that exists and has no row yet. *)
Definition empty_customers_db : tables := [("customers", [])].


(** What is typed into a form: nothing for [email], [v] elsewhere. *)
Definition typed_but_email (c : string) : string :=
  if bool_decide (c = "email") then "" else "v".

(** The claim that an upload sends records with exactly the columns
    [cols]. *)
Definition sends_columns (sent : list request) (cols : gset string) : Prop :=
  ∀ t records, Insert t (Many records) ∈ sent →
               Forall (λ rec, list_to_set (keys rec) = cols) records.

(** ** [config.py] *)

(** [not s] for what [os.getenv] answers: the variable is unset, or set to
    the empty string. *)
Definition falsy (s : option string) : bool :=
  match s with
  | None => true
  | Some s => bool_decide (s = "")
  end.

Definition validate_config (SUPABASE_URL SUPABASE_KEY : option string)
  : bool * string :=
  if falsy SUPABASE_URL || falsy SUPABASE_KEY then
    (false, "Missing Supabase credentials. Please set SUPABASE_URL and SUPABASE_KEY in .env file")
  else (true, "Configuration valid").

(** ** Steps that leave the store alone *)

(** A step that sends nothing and does not change the database. *)
Definition quiet {DB A} (m : @py DB A) : Prop :=
  ∀ w, wire (m w).2 = wire w ∧ db (m w).2 = db w.

(** * Properties *)

Section properties.
Context {DB : Type} {supabase : Supabase DB}.
Implicit Types (w : world (DB:=DB)) (df : pd.DataFrame).

(** Unfolds the operations of the upload tab down to the store of frames. *)
Ltac py_unfold :=
  cbv beta iota zeta delta
    [bind ret lift deref alloc store st_show st_info st_success
     len_obj columns_obj getitem_obj setitem_obj dropna_obj head_obj];
  cbn [objects db wire screen fst snd].

(** ** The store helpers *)

Lemma to_dict_records_length df :
  length (pd.to_dict_records df) = pd.len df.
Proof. unfold pd.to_dict_records, pd.len. by rewrite length_fmap. Qed.

(** Running [bulk_insert_records] on a live reference, whatever the store
    answers. *)
Lemma bulk_insert_records_run table_name r df w :
  objects w !! r = Some df →
  let q := Insert table_name (Many (pd.to_dict_records df)) in
  bulk_insert_records table_name r w =
    (Returned
       match (execute q (db w)).1 with
       | inr _ => (true, "Successfully inserted " +:+ pretty (pd.len df)
                           +:+ " records!")
       | inl e => (false, "Error in bulk insert: " +:+ e)
       end,
     mkWorld (execute q (db w)).2 (wire w ++ [q]) (screen w) (objects w)).
Proof.
  intros Hr q.
  unfold bulk_insert_records, try_except, bind, deref, run_query, ret.
  rewrite Hr. fold q. rewrite to_dict_records_length.
  by destruct (execute q (db w)) as [[e|data] d'].
Qed.

(** C2: the submitter sends the whole frame in one [insert] and nothing
    else, and when that call answers, it reports success with the number
    of rows of the frame it was given. *)
Theorem bulk_insert_single_batch_count table_name r df w :
  objects w !! r = Some df →
  let q := Insert table_name (Many (pd.to_dict_records df)) in
  let run := bulk_insert_records table_name r w in
  wire run.2 = wire w ++ [q] ∧
  length (pd.to_dict_records df) = pd.len df ∧
  db run.2 = (execute q (db w)).2 ∧
  (∀ data, (execute q (db w)).1 = inr data →
     run.1 = Returned (true, "Successfully inserted " +:+ pretty (pd.len df)
                               +:+ " records!")).
Proof.
  intros Hr q run. unfold run.
  rewrite (bulk_insert_records_run _ _ _ _ Hr). fold q. simpl.
  split_and!; [done | apply to_dict_records_length | done |].
  by intros data ->.
Qed.

(** C6: when the store refuses the batch, the submitter answers with a
    failure whose message ends with the store's own text, after that one
    call and no other; nothing is reported as inserted. *)
Theorem bulk_insert_failure_verbatim table_name r df w e :
  objects w !! r = Some df →
  let q := Insert table_name (Many (pd.to_dict_records df)) in
  let run := bulk_insert_records table_name r w in
  (execute q (db w)).1 = inl e →
  run.1 = Returned (false, "Error in bulk insert: " +:+ e) ∧
  wire run.2 = wire w ++ [q] ∧
  screen run.2 = screen w.
Proof.
  intros Hr q run He. unfold run.
  rewrite (bulk_insert_records_run _ _ _ _ Hr). fold q. simpl.
  by rewrite He.
Qed.

(** C5: [update_record] and [delete_record] report success whenever the
    store's call answers, whatever rows the answer lists, none included. *)
Theorem update_delete_success_without_match
    table_name record_id id_column data w rows :
  ((execute (Update table_name data id_column record_id) (db w)).1 = inr rows →
   (update_record table_name record_id id_column data w).1
     = Returned (true, "Record updated successfully!")) ∧
  ((execute (Delete table_name id_column record_id) (db w)).1 = inr rows →
   (delete_record table_name record_id id_column w).1
     = Returned (true, "Record deleted successfully!")).
Proof.
  split; intros Hq;
    unfold update_record, delete_record, try_except, bind, run_query, ret;
    destruct (execute _ (db w)) as [answer d']; simpl in Hq; by subst.
Qed.

(** Running [get_table_data], whatever the store answers. *)
Lemma get_table_data_run table_name limit w :
  let q := Select table_name limit in
  let w' := mkWorld (execute q (db w)).2 (wire w ++ [q]) (screen w) (objects w) in
  get_table_data table_name limit w =
    match (execute q (db w)).1 with
    | inr [] => (Returned pd.DataFrame_new, w')
    | inr data => (Returned (pd.DataFrame_of_records data), w')
    | inl e =>
        (Returned pd.DataFrame_new,
         mkWorld (db w') (wire w')
           (screen w ++ [Show Error (Plain ("Error fetching data: " +:+ e))])
           (objects w))
    end.
Proof.
  intros q w'. unfold w', get_table_data, try_except, bind, run_query, ret.
  fold q. by destruct (execute q (db w)) as [[e|[|row data]] d'].
Qed.

(** C3, as the code has it: a fetch answered with no rows and a fetch that
    raised both return the same frame, [pd.DataFrame()]; they differ only
    in the error notice the failed one puts on screen. *)
Theorem fetch_empty_and_failure_same_frame table_name limit w1 w2 e :
  let q := Select table_name limit in
  (execute q (db w1)).1 = inr [] →
  (execute q (db w2)).1 = inl e →
  (get_table_data table_name limit w1).1 = Returned pd.DataFrame_new ∧
  (get_table_data table_name limit w2).1 = Returned pd.DataFrame_new ∧
  screen (get_table_data table_name limit w1).2 = screen w1 ∧
  screen (get_table_data table_name limit w2).2 =
    screen w2 ++ [Show Error (Plain ("Error fetching data: " +:+ e))].
Proof.
  intros q H1 H2. rewrite !get_table_data_run. fold q.
  by rewrite H1, H2.
Qed.

(** ** The column lists of the upload tab *)

Lemma show_columns_run table_columns file_columns w :
  let matching_cols : gset string :=
    list_to_set file_columns ∩ list_to_set table_columns in
  show_columns table_columns file_columns w =
    (Returned (),
     mkWorld (db w) (wire w)
       (screen w ++
          [Show Info (Columns "Table columns" table_columns);
           Show Info (Columns "File columns" file_columns)] ++
          (if bool_decide (matching_cols = ∅) then []
           else [Show Success (ColumnSet "Matching columns" matching_cols)]))
       (objects w)).
Proof.
  intros m. unfold show_columns, bind, st_show, ret. fold m. simpl.
  case_bool_decide; simpl; rewrite <- ?(assoc_L (++)); simpl;
    by rewrite ?app_nil_r.
Qed.

(** C4, as the code has it: without a manual mapping the tab shows the
    table's columns, the file's columns and, when there is one, the set of
    names they share, and nothing else; no frame and no query is touched.
    The columns found on one side only are what remains of each shown list
    once the shared names are taken out, and the two remainders are
    disjoint. *)
Theorem show_columns_reports_shared_names table_columns file_columns w :
  let T : gset string := list_to_set table_columns in
  let F : gset string := list_to_set file_columns in
  let run := show_columns table_columns file_columns w in
  listed_names <$> drop (length (screen w)) (screen run.2) =
    [Some T; Some F] ++ (if bool_decide (F ∩ T = ∅) then [] else [Some (F ∩ T)]) ∧
  take (length (screen w)) (screen run.2) = screen w ∧
  wire run.2 = wire w ∧ objects run.2 = objects w ∧
  F ∖ T = F ∖ (F ∩ T) ∧ T ∖ F = T ∖ (F ∩ T) ∧ (F ∖ T) ## (T ∖ F).
Proof.
  intros T F run. unfold run. rewrite show_columns_run. simpl.
  rewrite drop_app_length, take_app_length. fold T F.
  split_and!; try done; [by case_bool_decide | set_solver..].
Qed.

(** ** The Add and Update forms *)

Lemma elem_of_dict_set {A} k (v : A) (d : list (string * A)) kv :
  kv ∈ dict_set k v d → kv = (k, v) ∨ kv ∈ d.
Proof.
  induction d as [|[k' v'] d IH]; simpl.
  - rewrite list_elem_of_singleton. auto.
  - case_decide; rewrite !elem_of_cons; [tauto|].
    intros [->|Hin]; [tauto|]. destruct (IH Hin); tauto.
Qed.

(** A form built by skipping some columns holds, for every other column,
    what was typed into its input. *)
Lemma form_fields (skip : string → bool) (typed : string → string) columns acc :
  Forall (λ kv, kv.2 = typed kv.1 ∧ skip kv.1 = false) acc →
  Forall (λ kv, kv.2 = typed kv.1 ∧ skip kv.1 = false)
    (foldl (λ d col, if skip col then d else dict_set col (typed col) d)
       acc columns).
Proof.
  revert acc. induction columns as [|col columns IH]; intros acc Hacc; [done|].
  simpl. apply IH. destruct (skip col) eqn:Hskip; [done|].
  apply Forall_forall. intros kv [->|Hin]%elem_of_dict_set; [done|].
  by eapply Forall_forall in Hacc.
Qed.

Lemma report_wire celebrate r w : wire (report celebrate r w).2 = wire w.
Proof. by destruct r as [[] m], celebrate. Qed.

Lemma insert_record_wire table_name data w :
  wire (insert_record table_name data w).2
    = wire w ++ [Insert table_name (One data)].
Proof.
  unfold insert_record, try_except, bind, run_query, ret.
  by destruct (execute _ (db w)) as [[e|rows] d'].
Qed.

Lemma update_record_wire table_name record_id id_column data w :
  wire (update_record table_name record_id id_column data w).2
    = wire w ++ [Update table_name data id_column record_id].
Proof.
  unfold update_record, try_except, bind, run_query, ret.
  by destruct (execute _ (db w)) as [[e|rows] d'].
Qed.

Lemma bind_wire {A B} (m : py A) (k : A → py B) w :
  (∀ a w', wire (k a w').2 = wire w') →
  wire (bind m k w).2 = wire (m w).2.
Proof. intros Hk. unfold bind. destruct (m w) as [[a|e] w']; [apply Hk|done]. Qed.

(** C9: what a submitted Add or Update form sends.  Every field sent holds
    the non-empty text typed for it; the Add form sends no field named
    [id], [created_at] or [updated_at] in any letter case, the Update form
    never sends the chosen id column; and when no field is left, nothing
    goes to the store. *)
Theorem submitted_payload_filled_and_unprotected
    table_name columns typed record_id id_column w :
  let added := add_clean_data (add_record_form columns typed) in
  let updated :=
    update_clean_data id_column (update_record_form columns id_column typed) in
  Forall (λ kv, kv.2 ≠ "" ∧ kv.2 = typed kv.1 ∧ lower kv.1 ∉ auto_generated)
    added ∧
  wire (add_record_submit table_name (add_record_form columns typed) w).2 =
    wire w ++ match added with
              | [] => []
              | _ :: _ => [Insert table_name (One (as_record added))]
              end ∧
  Forall (λ kv, kv.2 ≠ "" ∧ kv.2 = typed kv.1 ∧ kv.1 ≠ id_column) updated ∧
  wire (update_record_submit table_name record_id id_column
          (update_record_form columns id_column typed) w).2 =
    wire w ++ match updated with
              | [] => []
              | _ :: _ =>
                  [Update table_name (as_record updated) id_column record_id]
              end.
Proof.
  intros added updated. split_and!.
  - apply Forall_forall. intros kv [[Hv Hk] Hin]%list_elem_of_filter.
    pose proof (form_fields (λ col, bool_decide (lower col ∈ auto_generated))
                  typed columns [] (Forall_nil_2 _)) as Hform.
    eapply Forall_forall in Hform as [Htyped _]; [|exact Hin]. done.
  - unfold add_record_submit. fold added. destruct added as [|kv rest].
    + simpl. by rewrite app_nil_r.
    + rewrite bind_wire by (intros; apply report_wire).
      apply insert_record_wire.
  - apply Forall_forall. intros kv [[Hv Hk] Hin]%list_elem_of_filter.
    pose proof (form_fields (λ col, bool_decide (col = id_column))
                  typed columns [] (Forall_nil_2 _)) as Hform.
    eapply Forall_forall in Hform as [Htyped _]; [|exact Hin]. done.
  - unfold update_record_submit. fold updated. destruct updated as [|kv rest].
    + simpl. by rewrite app_nil_r.
    + rewrite bind_wire by (intros; apply report_wire).
      apply update_record_wire.
Qed.

(** ** Frames *)

Lemma filter_fmap_comm {A B} (f : A → B) (P : B → Prop) (Q : A → Prop)
    `{∀ b, Decision (P b)} `{∀ a, Decision (Q a)} (l : list A) :
  Forall (λ a, Q a ↔ P (f a)) l →
  filter P (f <$> l) = f <$> filter Q l.
Proof.
  induction 1 as [|a l Ha _ IH]; [done|].
  rewrite fmap_cons, !filter_cons.
  repeat case_decide; try tauto; rewrite ?fmap_cons; by rewrite IH.
Qed.

(** On a row as wide as the header, every cell is present exactly when
    every field of its record is. *)
Lemma complete_iff_fields (cs : list string) (r : nat * list value) :
  length r.2 = length cs →
  pd.complete r ↔ Forall (λ kv : string * value, isna kv.2 = false) (zip cs r.2).
Proof.
  intros Hlen. unfold pd.complete.
  rewrite <- (snd_zip cs r.2) at 1 by lia.
  by rewrite Forall_fmap.
Qed.

Lemma dropna_records df :
  pd.wf df →
  pd.to_dict_records (pd.dropna df) =
    filter (λ rec : record, Forall (λ kv, isna kv.2 = false) rec)
      (pd.to_dict_records df).
Proof.
  intros Hwf. unfold pd.to_dict_records, pd.dropna. simpl. symmetry.
  apply (filter_fmap_comm _ _ pd.complete).
  eapply Forall_impl; [apply (pd.wf_width _ Hwf)|].
  intros r Hr. by apply complete_iff_fields.
Qed.

Lemma dropna_obj_run r df w :
  objects w !! r = Some df →
  dropna_obj r w =
    (Returned (length (objects w)),
     mkWorld (db w) (wire w) (screen w) (objects w ++ [pd.dropna df])).
Proof. intros Hr. unfold dropna_obj, bind, deref, alloc. by rewrite Hr. Qed.

(** ** The cleaning options *)

Lemma lookup_alloc (objs : list pd.DataFrame) df :
  (objs ++ [df]) !! length objs = Some df.
Proof. by apply list_lookup_middle. Qed.

Lemma number_input_run (n : nat) entry w :
  number_input 1 n n entry w =
    if bool_decide (n < 1) then
      (Raised ("The `value` " +:+ pretty n +:+ " is less than the `min_value` "
                 +:+ pretty 1 +:+ "."), w)
    else (Returned (held_limit entry n), w).
Proof.
  unfold number_input, held_limit. case_bool_decide; [done|].
  rewrite bool_decide_eq_false_2 by lia.
  destruct entry as [k|]; [|done]. by case_bool_decide.
Qed.

Lemma clean_data_options_run wd r df w :
  objects w !! r = Some df →
  let cleaned := cleaned_frame wd df in
  let n := pd.len cleaned in
  let w1 :=
    if remove_empty wd then
      mkWorld (db w) (wire w)
        (screen w ++ [Show Info (Plain ("Rows after cleaning: " +:+ pretty n))])
        (objects w ++ [cleaned])
    else w in
  clean_data_options wd r w =
    if bool_decide (n < 1) then
      (Raised ("The `value` " +:+ pretty n +:+ " is less than the `min_value` "
                 +:+ pretty 1 +:+ "."), w1)
    else
      (Returned (length (objects w1)),
       mkWorld (db w1) (wire w1) (screen w1)
         (objects w1 ++ [pd.head (held_limit (upload_limit_entry wd) n) cleaned])).
Proof.
  intros Hr cleaned n w1. subst cleaned n w1.
  unfold clean_data_options, cleaned_frame.
  destruct (remove_empty wd); py_unfold; rewrite Hr; py_unfold.
  - repeat (rewrite lookup_alloc; py_unfold).
    rewrite number_input_run. case_bool_decide; [done|]. py_unfold.
    by rewrite lookup_alloc.
  - rewrite number_input_run. case_bool_decide; [done|]. py_unfold.
    by rewrite Hr.
Qed.

(** C7: ticking "Remove rows with empty values" makes a new frame out of
    the one [df_upload] names at that point, and the cleaning options go
    on with it: same columns, and as records exactly those of the old
    frame in which no field is missing, in the order they had. *)
Theorem remove_empty_drops_rows_with_missing_field wd r df w :
  objects w !! r = Some df →
  pd.wf df →
  remove_empty wd = true →
  ∃ r' df',
    (dropna_obj r w).1 = Returned r' ∧
    objects (dropna_obj r w).2 !! r' = Some df' ∧
    objects (clean_data_options wd r w).2 !! r' = Some df' ∧
    pd.columns df' = pd.columns df ∧
    pd.to_dict_records df' =
      filter (λ rec : record, Forall (λ kv, isna kv.2 = false) rec)
        (pd.to_dict_records df) ∧
    pd.to_dict_records df' `sublist_of` pd.to_dict_records df.
Proof.
  intros Hr Hwf Hon. exists (length (objects w)), (pd.dropna df).
  rewrite (dropna_obj_run _ _ _ Hr). simpl.
  split_and!; [done | apply lookup_alloc | | done
              | by apply dropna_records |].
  - rewrite (clean_data_options_run _ _ _ _ Hr).
    unfold cleaned_frame. rewrite Hon.
    case_bool_decide; cbn [objects snd]; [apply lookup_alloc|].
    rewrite lookup_app_l by (rewrite length_app; simpl; lia).
    apply lookup_alloc.
  - rewrite (dropna_records _ Hwf). apply sublist_filter.
Qed.

(** C8: the cleaning options never write into the frame they start from
    (nor into any other frame that exists already), and running them again
    with the same settings on the same frame ends the same way: the same
    refusal, or a frame equal to the first one. *)
Theorem cleaning_leaves_source_and_repeats wd r df w :
  objects w !! r = Some df →
  let run1 := clean_data_options wd r w in
  let run2 := clean_data_options wd r run1.2 in
  (∀ r0 df0, objects w !! r0 = Some df0 →
     objects run1.2 !! r0 = Some df0 ∧ objects run2.2 !! r0 = Some df0) ∧
  match run1.1, run2.1 with
  | Returned a, Returned b =>
      ∃ out, objects run1.2 !! a = Some out ∧ objects run2.2 !! b = Some out
  | Raised e1, Raised e2 => e1 = e2
  | _, _ => False
  end.
Proof.
  intros Hr run1 run2.
  assert (Hkeep : ∀ r0 df0, objects w !! r0 = Some df0 →
                            objects run1.2 !! r0 = Some df0).
  { intros r0 df0 H0. unfold run1. rewrite (clean_data_options_run _ _ _ _ Hr).
    case_bool_decide; destruct (remove_empty wd); simpl;
      rewrite ?lookup_app_l; eauto using lookup_lt_Some;
      rewrite ?length_app; simpl; apply lookup_lt_Some in H0; lia. }
  pose proof (Hkeep _ _ Hr) as Hr1.
  split.
  - intros r0 df0 H0. split; [by apply Hkeep|].
    apply Hkeep in H0. unfold run2.
    rewrite (clean_data_options_run _ _ _ _ Hr1).
    case_bool_decide; destruct (remove_empty wd); simpl;
      rewrite ?lookup_app_l; eauto using lookup_lt_Some;
      rewrite ?length_app; simpl; apply lookup_lt_Some in H0; lia.
  - unfold run2. rewrite (clean_data_options_run _ _ _ _ Hr1).
    unfold run1. rewrite (clean_data_options_run _ _ _ _ Hr).
    case_bool_decide; [done|]. simpl.
    eexists. split; by rewrite list_lookup_middle.
Qed.

(** ** The upload tab without a manual mapping *)

Lemma get_table_columns_run table_name w :
  let q := Select table_name 1 in
  let w' := mkWorld (execute q (db w)).2 (wire w ++ [q]) (screen w) (objects w) in
  get_table_columns table_name w =
    match (execute q (db w)).1 with
    | inr [] => (Returned [], w')
    | inr (row :: _) => (Returned (keys row), w')
    | inl e =>
        (Returned [],
         mkWorld (db w') (wire w')
           (screen w ++ [Show Error (Plain ("Error fetching columns: " +:+ e))])
           (objects w))
    end.
Proof.
  intros q w'. unfold w', get_table_columns, try_except, bind, run_query, ret.
  fold q. by destruct (execute q (db w)) as [[e|[|row data]] d'].
Qed.

Lemma map_columns_manually_off wd table_columns file_columns r w :
  map_columns wd = false ∨ apply_mapping wd = false →
  map_columns_manually wd table_columns file_columns r w = (Returned r, w).
Proof.
  unfold map_columns_manually.
  by intros [-> | ->]; [|destruct (map_columns wd)].
Qed.

Lemma Forall_imap {A B} (P : B → Prop) (f : nat → A → B) (l : list A) :
  (∀ i a, l !! i = Some a → P (f i a)) → Forall P (imap f l).
Proof.
  intros H. apply Forall_lookup_2. intros i b.
  rewrite list_lookup_imap. destruct (l !! i) eqn:E; [|done].
  intros [= <-]. eauto.
Qed.

Lemma of_rows_width header rows :
  Forall (λ r, length r = length header) rows →
  Forall (λ r : nat * list value, length r.2 = length header)
    (pd.body (pd.of_rows header rows)).
Proof.
  intros H. apply Forall_imap. intros i r Hi. simpl.
  by eapply Forall_lookup_1 in H.
Qed.

Lemma cleaned_frame_columns wd df :
  pd.columns (cleaned_frame wd df) = pd.columns df.
Proof. unfold cleaned_frame. by destruct (remove_empty wd). Qed.

Lemma cleaned_frame_width wd df :
  Forall (λ r : nat * list value, length r.2 = length (pd.columns df)) (pd.body df) →
  Forall (λ r : nat * list value, length r.2 = length (pd.columns df))
    (pd.body (cleaned_frame wd df)).
Proof.
  unfold cleaned_frame. destruct (remove_empty wd); [|done].
  simpl. intros H. apply Forall_forall. intros r [_ Hin]%list_elem_of_filter.
  by eapply Forall_forall in H.
Qed.

(** Records of a frame whose rows are as wide as its header carry exactly
    the header as keys. *)
Lemma to_dict_records_keys df :
  Forall (λ r : nat * list value, length r.2 = length (pd.columns df)) (pd.body df) →
  Forall (λ rec, keys rec = pd.columns df) (pd.to_dict_records df).
Proof.
  intros H. unfold pd.to_dict_records. apply Forall_fmap.
  eapply Forall_impl; [exact H|]. intros r Hr.
  unfold keys. apply fst_zip. by rewrite Hr.
Qed.

(** C1, as the code has it: without a manual mapping the frame handed to
    [bulk_insert_records] still has every column of the file; the names
    shared with the table are only shown.  After the one query that reads
    the table's columns, the upload sends the first rows of the (possibly
    cleaned) file frame, each record keyed by the whole header. *)
Theorem unmapped_upload_sends_every_file_column
    table_name header rows wd w row data :
  map_columns wd = false ∨ apply_mapping wd = false →
  upload wd = true →
  Forall (λ r, length r = length header) rows →
  (execute (Select table_name 1) (db w)).1 = inr (row :: data) →
  keys row ≠ [] →
  let df := cleaned_frame wd (pd.of_rows header rows) in
  pd.len df ≠ 0 →
  let sent :=
    pd.to_dict_records
      (pd.head (held_limit (upload_limit_entry wd) (pd.len df)) df) in
  let run := bulk_upload table_name (Returned (header, rows)) wd w in
  wire run.2 = wire w ++ [Select table_name 1; Insert table_name (Many sent)] ∧
  length sent = min (held_limit (upload_limit_entry wd) (pd.len df)) (pd.len df) ∧
  Forall (λ rec, keys rec = header) sent.
Proof.
  intros Hoff Hup Hrows Hq Hkeys df Hlen sent run.
  split_and!.
  - unfold run, bulk_upload, try_except. py_unfold.
    rewrite lookup_alloc. py_unfold.
    rewrite get_table_columns_run. py_unfold. rewrite Hq.
    destruct (keys row) as [|c cs] eqn:Ekeys; [done|].
    py_unfold. rewrite lookup_alloc. py_unfold.
    rewrite show_columns_run. py_unfold.
    rewrite map_columns_manually_off by done. py_unfold.
    erewrite clean_data_options_run by (cbn [objects]; apply lookup_alloc).
    fold df. rewrite bool_decide_eq_false_2 by lia.
    unfold upload_button. rewrite Hup. py_unfold.
    erewrite bulk_insert_records_run; cycle 1.
    { cbn [objects]. destruct (remove_empty wd); cbn [objects];
        apply lookup_alloc. }
    fold sent. py_unfold. unfold report, st_balloons, st_error.
    destruct (execute (Insert table_name (Many sent)) _).1 as [e|answer];
      py_unfold;
      destruct (remove_empty wd); cbn [wire]; by rewrite <- (assoc_L (++)).
  - unfold sent. rewrite to_dict_records_length. unfold pd.len, pd.head.
    simpl. rewrite length_take. done.
  - unfold sent. assert (Hc : pd.columns df = header).
    { unfold df. by rewrite cleaned_frame_columns. }
    eapply Forall_impl;
      [apply (to_dict_records_keys (pd.head _ df))|];
      cbn [pd.columns pd.body pd.head].
    + apply Forall_take. rewrite Hc.
      apply (cleaned_frame_width wd (pd.of_rows header rows)).
      by apply of_rows_width.
    + intros rec ->. exact Hc.
Qed.

(** ** Writing a column into a frame *)

Lemma position_Some c cs i :
  pd.position c cs = Some i → cs !! i = Some c.
Proof.
  revert i. induction cs as [|c' cs IH]; intros i; simpl; [done|].
  case_decide; [by intros [= <-]; subst|].
  destruct (pd.position c cs) as [j|]; simpl; [|done].
  intros [= <-]. by apply IH.
Qed.

Lemma position_None c cs : pd.position c cs = None ↔ c ∉ cs.
Proof.
  induction cs as [|c' cs IH]; simpl.
  - split; [intros _; apply not_elem_of_nil|done].
  - rewrite not_elem_of_cons. case_decide.
    + split; [done|]. intros [? _]. congruence.
    + destruct (pd.position c cs); simpl.
      * split; [done|]. intros [_ Hc]. by apply IH in Hc.
      * split; [|done]. intros _. split; [congruence|]. by apply IH.
Qed.

Lemma position_app_l c cs cs' i :
  pd.position c cs = Some i → pd.position c (cs ++ cs') = Some i.
Proof.
  revert i. induction cs as [|c' cs IH]; intros i; simpl; [done|].
  case_decide; [done|].
  destruct (pd.position c cs) as [j|]; simpl; [|done].
  intros [= <-]. by rewrite (IH j).
Qed.

Lemma position_app_new c cs :
  c ∉ cs → pd.position c (cs ++ [c]) = Some (length cs).
Proof.
  induction cs as [|c' cs IH]; simpl.
  - intros _. by rewrite decide_True.
  - rewrite not_elem_of_cons. intros [Hne Hc].
    rewrite decide_False by congruence. by rewrite IH.
Qed.

Lemma fmap_zip_with_l {A B C D} (g : A → B → C) (h : C → D) (k : A → D)
    (l : list A) (vs : list B) :
  length l = length vs →
  Forall (λ r, ∀ v, h (g r v) = k r) l →
  h <$> zip_with g l vs = k <$> l.
Proof.
  intros Hlen H. revert vs Hlen.
  induction H as [|r l Hr _ IH]; intros [|v vs] ?; simplify_eq/=; [done|].
  by rewrite Hr, IH.
Qed.

Lemma fmap_zip_with_r {A B C} (g : A → B → C) (h : C → B)
    (l : list A) (vs : list B) :
  length l = length vs →
  Forall (λ r, ∀ v, h (g r v) = v) l →
  h <$> zip_with g l vs = vs.
Proof.
  intros Hlen H. revert vs Hlen.
  induction H as [|r l Hr _ IH]; intros [|v vs] ?; simplify_eq/=; [done|].
  by rewrite Hr, IH.
Qed.

Section set_column.
Context (df : pd.DataFrame) (c : string) (vs : list value).
Hypothesis Hwidth : widths_ok df.
Hypothesis Hlen : length (pd.body df) = length vs.

Lemma set_column_index : pd.index (pd.set_column df c vs) = pd.index df.
Proof using Hlen.
  unfold pd.index, pd.set_column.
  destruct (pd.position c (pd.columns df)); simpl;
    apply fmap_zip_with_l; try done; by apply Forall_true.
Qed.

Lemma set_column_columns c' :
  c' ∈ pd.columns (pd.set_column df c vs) ↔ c' = c ∨ c' ∈ pd.columns df.
Proof using Type.
  unfold pd.set_column.
  destruct (pd.position c (pd.columns df)) as [i|] eqn:E; simpl.
  - apply position_Some, list_elem_of_lookup_2 in E.
    split; [tauto|]. by intros [->|].
  - rewrite elem_of_app, list_elem_of_singleton. tauto.
Qed.

Lemma set_column_NoDup :
  NoDup (pd.columns df) → NoDup (pd.columns (pd.set_column df c vs)).
Proof using Type.
  unfold pd.set_column.
  destruct (pd.position c (pd.columns df)) as [i|] eqn:E; simpl; [done|].
  intros Hnd. apply NoDup_app. split_and!; [done| |apply NoDup_singleton].
  intros x Hx ->%list_elem_of_singleton. by apply position_None in E.
Qed.

Lemma set_column_widths : widths_ok (pd.set_column df c vs).
Proof using Hwidth Hlen.
  unfold widths_ok, pd.set_column.
  destruct (pd.position c (pd.columns df)) as [i|] eqn:E; simpl.
  - apply Forall_forall. intros r (r0 & v & -> & Hr0 & _)%elem_of_zip_with.
    simpl. rewrite length_insert. by eapply Forall_forall in Hwidth.
  - apply Forall_forall. intros r (r0 & v & -> & Hr0 & _)%elem_of_zip_with.
    simpl. rewrite !length_app. simpl.
    eapply Forall_forall in Hwidth; [|exact Hr0]. lia.
Qed.

Lemma set_column_written : column (pd.set_column df c vs) c = Some vs.
Proof using Hwidth Hlen.
  unfold column, pd.set_column.
  destruct (pd.position c (pd.columns df)) as [i|] eqn:E; simpl.
  - rewrite E. f_equal. apply fmap_zip_with_r; [done|].
    eapply Forall_impl; [exact Hwidth|]. intros r Hr v. simpl.
    rewrite list_lookup_insert_eq; [done|].
    rewrite Hr. by eapply lookup_lt_Some, position_Some.
  - rewrite position_app_new by by apply position_None.
    f_equal. apply fmap_zip_with_r; [done|].
    eapply Forall_impl; [exact Hwidth|]. intros r Hr v. simpl.
    by rewrite <- Hr, list_lookup_middle.
Qed.

Lemma set_column_others c' :
  c' ≠ c → column (pd.set_column df c vs) c' = column df c'.
Proof using Hwidth Hlen.
  intros Hne. unfold column, pd.set_column.
  destruct (pd.position c (pd.columns df)) as [i|] eqn:E; simpl.
  - destruct (pd.position c' (pd.columns df)) as [j|] eqn:E'; [|done].
    f_equal. apply fmap_zip_with_l; [done|].
    apply Forall_true. intros r v. simpl.
    rewrite list_lookup_insert_ne; [done|].
    intros ->. apply position_Some in E, E'. congruence.
  - destruct (pd.position c' (pd.columns df)) as [j|] eqn:E'.
    + rewrite (position_app_l _ _ _ _ E'). f_equal.
      apply fmap_zip_with_l; [done|].
      eapply Forall_impl; [exact Hwidth|]. intros r Hr v. simpl.
      rewrite lookup_app_l; [done|].
      rewrite Hr. by eapply lookup_lt_Some, position_Some.
    + apply position_None in E'.
      assert (c' ∉ pd.columns df ++ [c]) as ->%position_None; [|done].
      rewrite elem_of_app, list_elem_of_singleton. tauto.
Qed.

End set_column.

Lemma zip_index_cells {A} (h : nat * list value → A) (rows : list (nat * list value)) :
  zip rows.*1 (h <$> rows) = (λ r, (r.1, h r)) <$> rows.
Proof. induction rows as [|r rows IH]; [done|]. csimpl. by rewrite IH. Qed.

(** [df[c]] is the column's cells next to the frame's labels. *)
Lemma getitem_column df c :
  pd.getitem df c =
    match column df c with
    | Some vs => Returned (zip (pd.index df) vs)
    | None => Raised ("'" +:+ c +:+ "'")
    end.
Proof.
  unfold pd.getitem, column, pd.index.
  destruct (pd.position c (pd.columns df)); [|done].
  by rewrite zip_index_cells.
Qed.

Lemma column_length df c vs :
  column df c = Some vs → length vs = length (pd.body df).
Proof.
  unfold column. destruct (pd.position c (pd.columns df)); [|done].
  intros [= <-]. by rewrite length_fmap.
Qed.

Lemma column_is_Some df c : c ∈ pd.columns df → is_Some (column df c).
Proof.
  intros Hc. unfold column.
  destruct (pd.position c (pd.columns df)) eqn:E; [by eexists|].
  by apply position_None in E.
Qed.

Lemma labels_of_blank_rows (labels : list nat) (cells : list value) :
  ((λ l, (l, cells)) <$> labels).*1 = labels.
Proof. induction labels as [|l labels IH]; [done|]. csimpl. by rewrite IH. Qed.

(** Writing a column whose labels are those of the frame, or the first
    column of a frame that has none: the cells go in as they come. *)
Lemma setitem_aligned acc c (s : pd.Series) :
  widths_ok acc →
  (pd.columns acc = [] → pd.body acc = []) →
  (pd.columns acc ≠ [] → pd.index acc = s.*1) →
  ∃ acc1,
    pd.setitem acc c s = Returned (pd.set_column acc1 c s.*2) ∧
    pd.columns acc1 = pd.columns acc ∧
    widths_ok acc1 ∧
    pd.index acc1 = s.*1 ∧
    (∀ c', column acc1 c' = column acc c').
Proof.
  intros Hwidth Hempty Hindex. unfold pd.setitem.
  exists (pd.ensure_valid_index acc s).
  assert (pd.columns (pd.ensure_valid_index acc s) = pd.columns acc) as Hcols.
  { unfold pd.ensure_valid_index. by destruct (_ && _). }
  assert (pd.index (pd.ensure_valid_index acc s) = s.*1) as Hidx.
  { unfold pd.ensure_valid_index, pd.len.
    destruct (decide (pd.columns acc = [])) as [Hc|Hc].
    - destruct s as [|kv s]; simpl.
      + rewrite andb_false_r. unfold pd.index. by rewrite (Hempty Hc).
      + rewrite (Hempty Hc). simpl. unfold pd.index. simpl. f_equal.
        apply labels_of_blank_rows.
    - specialize (Hindex Hc). case_bool_decide as Hz; simpl; [|done].
      case_bool_decide as Hs; simpl; [done|].
      exfalso. apply Hs. rewrite <- (length_fmap fst s), <- Hindex.
      unfold pd.index. by rewrite length_fmap. }
  unfold pd.reindex_for_setitem.
  rewrite Hidx, bool_decide_eq_true_2 by done. simpl.
  split_and!; try done.
  - unfold pd.ensure_valid_index. destruct (_ && _); [|done].
    unfold widths_ok. simpl. apply Forall_fmap, Forall_true.
    intros l. simpl. by rewrite length_replicate.
  - intros c'. unfold pd.ensure_valid_index, pd.len.
    destruct (decide (pd.columns acc = [])) as [Hc|Hc].
    + unfold column. destruct (_ && _); simpl; by rewrite Hc.
    + specialize (Hindex Hc). case_bool_decide as Hz; simpl; [|done].
      case_bool_decide as Hs; simpl; [done|].
      exfalso. apply Hs. rewrite <- (length_fmap fst s), <- Hindex.
      unfold pd.index. by rewrite length_fmap.
Qed.

Lemma last_source_snoc done f c : last_source (done ++ [(f, c)]) c = Some f.
Proof.
  unfold last_source. rewrite filter_app, filter_cons_True by done.
  by rewrite filter_nil, last_snoc.
Qed.

Lemma last_source_snoc_ne done f c c' :
  c' ≠ c → last_source (done ++ [(f, c)]) c' = last_source done c'.
Proof.
  intros Hne. unfold last_source.
  rewrite filter_app, filter_cons_False by (simpl; congruence).
  by rewrite filter_nil, app_nil_r.
Qed.

Lemma mapping_inv_skip df done acc f :
  mapping_inv df done acc → mapping_inv df (done ++ [(f, "Skip")]) acc.
Proof.
  intros [Hnd Hw He Hi Hc Hs]. split; try done.
  - intros c. rewrite Hc. split; intros [Hne [f' Hf']]; split; try done.
    + exists f'. rewrite elem_of_app. by left.
    + apply elem_of_app in Hf' as [Hf'|Hf']; [by exists f'|].
      apply list_elem_of_singleton in Hf'. congruence.
  - intros c Hin. destruct (Hs c Hin) as (f' & Hl & Hcol).
    exists f'. split; [|done].
    rewrite last_source_snoc_ne; [done|]. by apply Hc in Hin as [? _].
Qed.

Lemma mapping_inv_write df done acc f c :
  widths_ok df →
  f ∈ pd.columns df →
  c ≠ "Skip" →
  mapping_inv df done acc →
  ∃ s acc',
    pd.getitem df f = Returned s ∧
    pd.setitem acc c s = Returned acc' ∧
    mapping_inv df (done ++ [(f, c)]) acc'.
Proof.
  intros Hdf Hf Hskip [Hnd Hw He Hi Hc Hs].
  destruct (column_is_Some df f Hf) as [vs Hvs].
  pose proof (column_length _ _ _ Hvs) as Hlen.
  exists (zip (pd.index df) vs).
  assert ((zip (pd.index df) vs).*1 = pd.index df) as Hfst.
  { apply fst_zip. unfold pd.index. rewrite length_fmap. lia. }
  assert ((zip (pd.index df) vs).*2 = vs) as Hsnd.
  { apply snd_zip. unfold pd.index. rewrite length_fmap. lia. }
  destruct (setitem_aligned acc c (zip (pd.index df) vs) Hw He)
    as (acc1 & Hset & Hcols1 & Hw1 & Hidx1 & Hcol1).
  { intros Hne. rewrite Hfst. by apply Hi. }
  rewrite Hsnd in Hset. rewrite Hfst in Hidx1.
  assert (length (pd.body acc1) = length vs) as Hlen1.
  { rewrite Hlen. unfold pd.index in Hidx1.
    rewrite <- (length_fmap fst (pd.body acc1)), Hidx1. by rewrite length_fmap. }
  exists (pd.set_column acc1 c vs).
  split_and!; [by rewrite getitem_column, Hvs | done |].
  split.
  - apply set_column_NoDup. by rewrite Hcols1.
  - by apply set_column_widths.
  - intros Hnil. exfalso.
    assert (c ∈ pd.columns (pd.set_column acc1 c vs)) as Hin
      by (apply set_column_columns; by left).
    rewrite Hnil in Hin. by apply not_elem_of_nil in Hin.
  - intros _. by rewrite set_column_index.
  - intros c'. rewrite set_column_columns, Hcols1, Hc. split.
    + intros [->|[Hne [f' Hf']]]; (split; [done|]).
      * exists f. rewrite elem_of_app, list_elem_of_singleton. by right.
      * exists f'. rewrite elem_of_app. by left.
    + intros [Hne [f' [Hf'|Hf']%elem_of_app]]; [right; eauto|].
      apply list_elem_of_singleton in Hf'. left. congruence.
  - intros c' Hin. destruct (decide (c' = c)) as [->|Hne].
    + exists f. split; [apply last_source_snoc|].
      by rewrite set_column_written.
    + apply set_column_columns in Hin as [?|Hin]; [done|].
      rewrite Hcols1 in Hin. destruct (Hs c' Hin) as (f' & Hl & Hcol).
      exists f'. split; [by rewrite last_source_snoc_ne|].
      by rewrite set_column_others, Hcol1.
Qed.

(** The loop never raises on the columns of the file, and keeps the
    invariant. *)
Lemma mapped_frame_inv df mapping done acc :
  widths_ok df →
  Forall (λ kv, kv.1 ∈ pd.columns df) mapping →
  mapping_inv df done acc →
  ∃ acc', mapped_frame df mapping acc = Returned acc' ∧
          mapping_inv df (done ++ mapping) acc'.
Proof.
  intros Hdf Hkeys. revert done acc.
  induction Hkeys as [|[f c] mapping Hf _ IH]; intros done acc Hinv.
  - exists acc. by rewrite app_nil_r.
  - simpl. rewrite (cons_middle _ done), (assoc_L (++)).
    case_bool_decide as Hskip; simpl in Hskip.
    + subst c. apply IH. by apply mapping_inv_skip.
    + destruct (mapping_inv_write df done acc f c Hdf Hf Hskip Hinv)
        as (s & acc' & -> & -> & Hinv').
      by apply IH.
Qed.

(** ** The manual mapping *)

Lemma dict_set_fresh {A} k (v : A) (d : list (string * A)) :
  k ∉ d.*1 → dict_set k v d = d ++ [(k, v)].
Proof.
  induction d as [|[k' v'] d IH]; [done|]. csimpl.
  rewrite not_elem_of_cons. intros [Hne Hk].
  rewrite decide_False by congruence. by rewrite IH.
Qed.

(** With distinct file columns the mapping lists them in file order, each
    with the option picked for it. *)
Lemma mapping_of_distinct_columns {A} (g : string → A) file_columns acc :
  NoDup (acc.*1 ++ file_columns) →
  foldl (λ m f, dict_set f (g f) m) acc file_columns =
    acc ++ ((λ f, (f, g f)) <$> file_columns).
Proof.
  revert acc. induction file_columns as [|f fs IH]; intros acc Hnd; simpl.
  - by rewrite app_nil_r.
  - rewrite dict_set_fresh.
    + rewrite IH; [by rewrite <- (assoc_L (++))|].
      rewrite fmap_app. simpl. by rewrite <- (assoc_L (++)).
    + apply NoDup_app in Hnd as (_ & Hdisj & _).
      intros Hin. apply (Hdisj f Hin). by left.
Qed.

Lemma column_mapping_distinct table_columns file_columns chosen :
  NoDup file_columns →
  column_mapping table_columns file_columns chosen =
    (λ f, (f, selectbox ("Skip" :: table_columns) (chosen f))) <$> file_columns.
Proof.
  intros Hnd. unfold column_mapping.
  by rewrite (mapping_of_distinct_columns
                (λ f, selectbox ("Skip" :: table_columns) (chosen f))).
Qed.

Lemma last_source_decided (dest : string → string) pre f post :
  Forall (λ f', dest f' ≠ dest f) post →
  last_source ((λ f, (f, dest f)) <$> (pre ++ f :: post)) (dest f) = Some f.
Proof.
  intros Hpost. unfold last_source.
  rewrite fmap_app, fmap_cons, filter_app, filter_cons_True by done.
  assert (filter (λ kv : string * string, kv.2 = dest f)
            ((λ f, (f, dest f)) <$> post) = []) as ->.
  { induction Hpost as [|f' post Hf' _ IH]; [done|].
    rewrite fmap_cons, filter_cons_False by done. exact IH. }
  by rewrite last_snoc.
Qed.

(** The loop on references does what [mapped_frame] does on frames, and
    writes into the new frame only. *)
Lemma for_each_mapping_run mapping r m df acc acc' w :
  r ≠ m →
  objects w !! r = Some df →
  objects w !! m = Some acc →
  mapped_frame df mapping acc = Returned acc' →
  for_each mapping
    (λ kv, if bool_decide (kv.2 = "Skip") then ret ()
           else bind (getitem_obj r kv.1) (λ s, setitem_obj m kv.2 s)) w
  = (Returned (),
     mkWorld (db w) (wire w) (screen w) (<[m:=acc']> (objects w))).
Proof.
  intros Hrm. revert acc w.
  induction mapping as [|kv rest IH]; intros acc w Hr Hm Hrun; simpl in *.
  - injection Hrun as <-. rewrite list_insert_id by done. by destruct w.
  - unfold bind at 1. case_bool_decide as Hskip.
    + unfold ret at 1. by eapply IH.
    + destruct (pd.getitem df kv.1) as [s|e] eqn:Hget; [|done].
      destruct (pd.setitem acc kv.2 s) as [acc1|e] eqn:Hset; [|done].
      py_unfold. rewrite Hr. py_unfold. rewrite Hget, Hm. py_unfold.
      rewrite Hset.
      erewrite IH; [|cbn [objects]..|exact Hrun].
      * cbn [db wire screen objects]. by rewrite list_insert_insert_eq.
      * by rewrite list_lookup_insert_ne.
      * apply list_lookup_insert_eq. by eapply lookup_lt_Some.
Qed.

Lemma apply_column_mapping_run mapping r df acc' w :
  objects w !! r = Some df →
  mapped_frame df mapping pd.DataFrame_new = Returned acc' →
  apply_column_mapping mapping r w =
    (Returned (length (objects w)),
     mkWorld (db w) (wire w) (screen w) (objects w ++ [acc'])).
Proof.
  intros Hr Hrun. unfold apply_column_mapping.
  unfold bind at 1, alloc at 1. unfold bind at 1.
  erewrite for_each_mapping_run; [| |cbn [objects]..|exact Hrun].
  - unfold ret. cbn [db wire screen objects].
    rewrite insert_app_r_alt by done. by rewrite Nat.sub_diag.
  - apply lookup_lt_Some in Hr. lia.
  - rewrite lookup_app_l; [done|]. by eapply lookup_lt_Some.
  - apply lookup_alloc.
Qed.

(** C10, as the code has it: "Apply Mapping" builds a new frame and leaves
    the file's frame alone.  Its columns are the destinations picked,
    "Skip" apart, each once; a destination picked for several file columns
    holds the column of the last of them in file order, labels and cells;
    and the rows keep their labels and order as soon as one column is not
    skipped.  When every column is skipped the new frame is [pd.DataFrame()],
    which has no row at all. *)
Theorem apply_mapping_last_column_wins table_columns wd r df w :
  objects w !! r = Some df →
  pd.wf df →
  map_columns wd = true →
  apply_mapping wd = true →
  let dest f := selectbox ("Skip" :: table_columns) (chosen wd f) in
  let run := map_columns_manually wd table_columns (pd.columns df) r w in
  ∃ m mapped_df,
    run.1 = Returned m ∧
    objects run.2 !! m = Some mapped_df ∧
    objects run.2 !! r = Some df ∧
    NoDup (pd.columns mapped_df) ∧
    (∀ c, c ∈ pd.columns mapped_df ↔
          c ≠ "Skip" ∧ ∃ f, f ∈ pd.columns df ∧ dest f = c) ∧
    (∀ pre f post,
       pd.columns df = pre ++ f :: post →
       dest f ≠ "Skip" →
       Forall (λ f', dest f' ≠ dest f) post →
       pd.getitem mapped_df (dest f) = pd.getitem df f) ∧
    ((∃ f, f ∈ pd.columns df ∧ dest f ≠ "Skip") →
       pd.index mapped_df = pd.index df) ∧
    ((∀ f, f ∈ pd.columns df → dest f = "Skip") →
       mapped_df = pd.DataFrame_new).
Proof.
  intros Hr [Hnd Hwidth Hidx] Hmap Happly dest run.
  pose proof (column_mapping_distinct table_columns _ (chosen wd) Hnd) as Hcm.
  fold dest in Hcm.
  destruct (mapped_frame_inv df ((λ f, (f, dest f)) <$> pd.columns df) []
              pd.DataFrame_new Hwidth) as (mapped_df & Hrun & Hinv).
  { apply Forall_fmap, Forall_forall. by intros f Hf. }
  { split; try done; simpl.
    - apply NoDup_nil_2.
    - by apply Forall_nil_2.
    - intros c. split; [by intros ?%not_elem_of_nil|].
      by intros [_ [f ?%not_elem_of_nil]].
    - by intros c ?%not_elem_of_nil. }
  rewrite app_nil_l in Hinv. destruct Hinv as [Hnd' Hw' He' Hi' Hc' Hs'].
  assert (∀ c, c ∈ pd.columns mapped_df ↔
               c ≠ "Skip" ∧ ∃ f, f ∈ pd.columns df ∧ dest f = c) as Hcols.
  { intros c. rewrite Hc'. split; intros [Hne [f Hf]]; (split; [done|]).
    - apply list_elem_of_fmap in Hf as (f' & [= -> ->] & Hf'). by exists f'.
    - destruct Hf as [Hf <-]. exists f. apply list_elem_of_fmap. by exists f. }
  exists (length (objects w)), mapped_df.
  unfold run, map_columns_manually. rewrite Hmap, Happly, Hcm.
  unfold dest in Hrun.
  assert (∀ k, bind (apply_column_mapping
                       ((λ f, (f, selectbox ("Skip" :: table_columns) (chosen wd f)))
                          <$> pd.columns df) r) k w
               = k (length (objects w))
                   (mkWorld (db w) (wire w) (screen w) (objects w ++ [mapped_df])))
    as -> by (intros k; unfold bind;
              by rewrite (apply_column_mapping_run _ _ _ _ _ Hr Hrun)).
  py_unfold.
  split_and!; try done.
  - apply lookup_alloc.
  - rewrite lookup_app_l; [done|]. by eapply lookup_lt_Some.
  - intros pre f post Hsplit Hskip Hpost.
    assert (dest f ∈ pd.columns mapped_df) as Hin.
    { apply Hcols. split; [done|]. exists f. split; [|done].
      rewrite Hsplit. apply elem_of_app. right. by left. }
    destruct (Hs' _ Hin) as (f' & Hlast & Hcol).
    rewrite Hsplit, last_source_decided in Hlast by done.
    injection Hlast as <-.
    assert (is_Some (column df f)) as [vs Hvs].
    { apply column_is_Some. rewrite Hsplit. apply elem_of_app. right. by left. }
    rewrite !getitem_column, Hcol, Hvs, Hi'; [done|].
    intros Hnil. rewrite Hnil in Hin. by apply not_elem_of_nil in Hin.
  - intros (f & Hf & Hskip). apply Hi'.
    intros Hnil. assert (dest f ∈ pd.columns mapped_df) as Hin
      by (apply Hcols; eauto).
    rewrite Hnil in Hin. by apply not_elem_of_nil in Hin.
  - intros Hall. assert (pd.columns mapped_df = []) as Hnil.
    { destruct (pd.columns mapped_df) as [|c cs] eqn:E; [done|].
      assert (c ∈ c :: cs) as Hin by by left.
      apply Hcols in Hin as (Hne & f & Hf & <-).
      by destruct Hne; apply Hall. }
    destruct mapped_df as [cols rows]. simpl in *.
    by rewrite Hnil, (He' Hnil).
Qed.

End properties.

(** * The script on concrete inputs *)

(** C1, where it fails: a ten-row file with columns [name], [email] and
    [extra] uploaded to a table with columns [name] and [email], no manual
    mapping, no cleaning, limit 10.  The ten records sent all carry
    [extra]; they are not restricted to the shared columns. *)
Lemma unmapped_upload_keeps_extra_column :
  let run := bulk_upload "customers" (Returned customers_file) plain_upload
               (fresh_run customers_db) in
  ∃ sent,
    wire run.2 = [Select "customers" 1; Insert "customers" (Many sent)] ∧
    length sent = 10 ∧
    Forall (λ rec, keys rec = ["name"; "email"; "extra"]) sent ∧
    ¬ sends_columns (wire run.2)
        (list_to_set ["name"; "email"; "extra"] ∩ list_to_set ["name"; "email"]).
Proof.
  eexists. split; [vm_compute; reflexivity|].
  split; [reflexivity|]. split; [repeat constructor|].
  intros Hclaim.
  specialize (Hclaim "customers" _ ltac:(vm_compute; right; left)).
  apply Forall_inv in Hclaim. vm_compute in Hclaim.
  set_solver.
Qed.


(** C3, where it fails: fetching from a table without rows and fetching
    from a table the store does not have.  The store answers with an empty
    list in the first case and raises in the second; [get_table_data]
    returns the same thing in both. *)
Lemma fetch_failure_returns_the_empty_frame :
  let w_empty := fresh_run [("orders", [])] in
  let w_down := fresh_run [] in
  (execute (Select "orders" 100) (db w_empty)).1 = inr [] ∧
  (execute (Select "orders" 100) (db w_down)).1
    = inl "relation orders does not exist" ∧
  (get_table_data "orders" 100 w_empty).1
    = (get_table_data "orders" 100 w_down).1.
Proof. by vm_compute. Qed.

(** C4, where it fails: file columns [a], [b], [c] against table columns
    [b], [c], [d].  Three notices are shown: the table's columns, the
    file's columns and the shared names; none of them lists [a] alone or
    [d] alone. *)
Lemma unmatched_columns_are_not_shown :
  let run := show_columns ["b"; "c"; "d"] ["a"; "b"; "c"] (fresh_run []) in
  screen run.2 =
    [Show Info (Columns "Table columns" ["b"; "c"; "d"]);
     Show Info (Columns "File columns" ["a"; "b"; "c"]);
     Show Success (ColumnSet "Matching columns" {["b"; "c"]})] ∧
  Forall (λ n, listed_names n ≠ Some ({["a"]} : gset string) ∧
               listed_names n ≠ Some ({["d"]} : gset string))
    (screen run.2).
Proof.
  assert (screen (show_columns ["b"; "c"; "d"] ["a"; "b"; "c"] (fresh_run [])).2 =
    [Show Info (Columns "Table columns" ["b"; "c"; "d"]);
     Show Info (Columns "File columns" ["a"; "b"; "c"]);
     Show Success (ColumnSet "Matching columns" {["b"; "c"]})]) as Hscreen.
  { rewrite show_columns_run. cbn [screen fresh_run app].
    rewrite bool_decide_eq_false_2 by set_solver.
    repeat f_equal; set_solver. }
  cbv zeta. rewrite Hscreen. split; [done|].
  repeat apply Forall_cons_2; [..|apply Forall_nil_2];
    cbn [listed_names]; split; intros [= Heq]; set_solver.
Qed.

(** C10, where it fails: "Apply Mapping" pressed with every selectbox on
    "Skip", its first option.  The file's frame has two rows; the mapped
    frame is [pd.DataFrame()] and has none, and the row limit that follows
    refuses it. *)
Lemma skipping_every_column_loses_the_rows :
  let w := mkWorld (customers_db : tables) [] [] [three_columns] in
  let run := map_columns_manually skip_all ["x"; "y"]
               (pd.columns three_columns) 0 w in
  pd.len three_columns = 2 ∧
  run.1 = Returned 1 ∧
  objects run.2 !! 1 = Some pd.DataFrame_new ∧
  pd.len pd.DataFrame_new = 0 ∧
  (clean_data_options skip_all 1 run.2).1
    = Raised "The `value` 0 is less than the `min_value` 1.".
Proof. by vm_compute. Qed.

(** ** The general statements at work *)

Lemma unmapped_upload_sends_every_file_column_witness :
  let w := fresh_run customers_db in
  let header := customers_file.1 in
  let rows := customers_file.2 in
  let df := cleaned_frame plain_upload (pd.of_rows header rows) in
  let sent := pd.to_dict_records (pd.head 10 df) in
  (map_columns plain_upload = false ∨ apply_mapping plain_upload = false) ∧
  upload plain_upload = true ∧
  Forall (λ r, length r = length header) rows ∧
  (execute (Select "customers" 1) (db w)).1
    = inr ([("name", VStr "Ada"); ("email", VStr "ada@example.com")] :: []) ∧
  pd.len df ≠ 0 ∧
  wire (bulk_upload "customers" (Returned (header, rows)) plain_upload w).2
    = [Select "customers" 1; Insert "customers" (Many sent)] ∧
  length sent = 10 ∧
  Forall (λ rec, keys rec = ["name"; "email"; "extra"]) sent.
Proof.
  intros w header rows df sent.
  assert (Forall (λ r, length r = length header) rows) as Hrows
    by (apply Forall_fmap, Forall_true; reflexivity).
  split; [left; reflexivity|]. split; [reflexivity|]. split; [exact Hrows|].
  split; [reflexivity|]. split; [discriminate|].
  exact (unmapped_upload_sends_every_file_column "customers" header rows
           plain_upload w _ [] (or_introl eq_refl) eq_refl Hrows eq_refl
           ltac:(discriminate) ltac:(discriminate)).
Defined.

Lemma bulk_insert_single_batch_count_witness :
  let w := mkWorld customers_db [] [] [three_columns] in
  let run := bulk_insert_records "customers" 0 w in
  objects w !! 0 = Some three_columns ∧
  wire run.2 = [Insert "customers" (Many (pd.to_dict_records three_columns))] ∧
  run.1 = Returned (true, "Successfully inserted 2 records!").
Proof.
  intros w run. split; [reflexivity|].
  pose proof (bulk_insert_single_batch_count "customers" 0 three_columns w
                eq_refl) as H.
  cbv zeta in H. destruct H as (Hwire & _ & _ & Hok).
  split; [exact Hwire|]. exact (Hok _ eq_refl).
Defined.

Lemma bulk_insert_failure_verbatim_witness :
  let w := mkWorld customers_db [] [] [three_columns] in
  let q := Insert "orders" (Many (pd.to_dict_records three_columns)) in
  let run := bulk_insert_records "orders" 0 w in
  objects w !! 0 = Some three_columns ∧
  (execute q (db w)).1 = inl "relation orders does not exist" ∧
  run.1 = Returned (false, "Error in bulk insert: relation orders does not exist") ∧
  wire run.2 = [q] ∧
  screen run.2 = [].
Proof.
  intros w q run. split; [reflexivity|]. split; [reflexivity|].
  exact (bulk_insert_failure_verbatim "orders" 0 three_columns w
           "relation orders does not exist" eq_refl eq_refl).
Defined.

(** No customer is called Zed: the update and the delete match nothing,
    and both report success. *)
Lemma update_delete_success_without_match_witness :
  let w := fresh_run customers_db in
  (execute (Update "customers" [("email", VStr "zed@example.com")]
              "name" (VStr "Zed")) (db w)).1 = inr [] ∧
  (execute (Delete "customers" "name" (VStr "Zed")) (db w)).1 = inr [] ∧
  (update_record "customers" (VStr "Zed") "name"
     [("email", VStr "zed@example.com")] w).1
    = Returned (true, "Record updated successfully!") ∧
  (delete_record "customers" (VStr "Zed") "name" w).1
    = Returned (true, "Record deleted successfully!").
Proof.
  intros w. split; [reflexivity|]. split; [reflexivity|].
  destruct (update_delete_success_without_match "customers" (VStr "Zed")
              "name" [("email", VStr "zed@example.com")] w [])
    as [Hupdate Hdelete].
  split; [exact (Hupdate eq_refl) | exact (Hdelete eq_refl)].
Defined.

Lemma fetch_empty_and_failure_same_frame_witness :
  let w1 := fresh_run [("orders", [])] in
  let w2 := fresh_run [] in
  (execute (Select "orders" 100) (db w1)).1 = inr [] ∧
  (execute (Select "orders" 100) (db w2)).1
    = inl "relation orders does not exist" ∧
  (get_table_data "orders" 100 w1).1 = Returned pd.DataFrame_new ∧
  (get_table_data "orders" 100 w2).1 = Returned pd.DataFrame_new ∧
  screen (get_table_data "orders" 100 w1).2 = [] ∧
  screen (get_table_data "orders" 100 w2).2 =
    [Show Error (Plain "Error fetching data: relation orders does not exist")].
Proof.
  intros w1 w2. split; [reflexivity|]. split; [reflexivity|].
  exact (fetch_empty_and_failure_same_frame "orders" 100 w1 w2
           "relation orders does not exist" eq_refl eq_refl).
Defined.

Lemma four_records_wf : pd.wf four_records.
Proof.
  split.
  - cbn. repeat (apply NoDup_cons_2; [set_solver|]). apply NoDup_nil_2.
  - cbn. repeat (apply Forall_cons_2; [reflexivity|]). apply Forall_nil_2.
  - cbn. repeat (apply NoDup_cons_2; [set_solver|]). apply NoDup_nil_2.
Defined.

Lemma three_columns_wf : pd.wf three_columns.
Proof.
  split.
  - cbn. repeat (apply NoDup_cons_2; [set_solver|]). apply NoDup_nil_2.
  - cbn. repeat (apply Forall_cons_2; [reflexivity|]). apply Forall_nil_2.
  - cbn. repeat (apply NoDup_cons_2; [set_solver|]). apply NoDup_nil_2.
Defined.

(** Four records, one with a missing field: three are left, in order. *)
Lemma remove_empty_drops_rows_with_missing_field_witness :
  let w := mkWorld customers_db [] [] [four_records] in
  objects w !! 0 = Some four_records ∧
  pd.wf four_records ∧
  remove_empty clean_two = true ∧
  ∃ r' df',
    (dropna_obj 0 w).1 = Returned r' ∧
    objects (dropna_obj 0 w).2 !! r' = Some df' ∧
    objects (clean_data_options clean_two 0 w).2 !! r' = Some df' ∧
    pd.to_dict_records df' =
      [[("name", VStr "Ada"); ("email", VStr "ada@example.com")];
       [("name", VStr "Cy"); ("email", VStr "cy@example.com")];
       [("name", VStr "Di"); ("email", VStr "di@example.com")]].
Proof.
  intros w. split; [reflexivity|]. split; [exact four_records_wf|].
  split; [reflexivity|].
  destruct (remove_empty_drops_rows_with_missing_field clean_two 0
              four_records w eq_refl four_records_wf eq_refl)
    as (r' & df' & Hret & Hobj & Hnext & _ & Hrecords & _).
  exists r', df'. split; [exact Hret|]. split; [exact Hobj|].
  split; [exact Hnext|]. rewrite Hrecords. reflexivity.
Defined.

Lemma cleaning_leaves_source_and_repeats_witness :
  let w := mkWorld customers_db [] [] [four_records] in
  let run1 := clean_data_options clean_two 0 w in
  let run2 := clean_data_options clean_two 0 run1.2 in
  objects w !! 0 = Some four_records ∧
  objects run1.2 !! 0 = Some four_records ∧
  objects run2.2 !! 0 = Some four_records ∧
  match run1.1, run2.1 with
  | Returned a, Returned b =>
      ∃ out, objects run1.2 !! a = Some out ∧ objects run2.2 !! b = Some out
  | Raised e1, Raised e2 => e1 = e2
  | _, _ => False
  end.
Proof.
  intros w run1 run2. split; [reflexivity|].
  pose proof (cleaning_leaves_source_and_repeats clean_two 0 four_records w
                eq_refl) as H.
  cbv zeta in H. destruct H as [Hkeep Hsame].
  destruct (Hkeep 0 four_records eq_refl) as [H1 H2].
  split; [exact H1|]. split; [exact H2|]. exact Hsame.
Defined.

(** Columns [a] and [b] both mapped to [x], [c] skipped: [x] holds what
    [b] held, and the two rows keep their labels. *)
Lemma apply_mapping_last_column_wins_witness :
  let w := mkWorld customers_db [] [] [three_columns] in
  let run := map_columns_manually merge_a_b ["x"; "y"]
               (pd.columns three_columns) 0 w in
  objects w !! 0 = Some three_columns ∧
  pd.wf three_columns ∧
  map_columns merge_a_b = true ∧
  apply_mapping merge_a_b = true ∧
  ∃ m mapped_df,
    run.1 = Returned m ∧
    objects run.2 !! m = Some mapped_df ∧
    objects run.2 !! 0 = Some three_columns ∧
    pd.getitem mapped_df "x" = pd.getitem three_columns "b" ∧
    pd.index mapped_df = pd.index three_columns.
Proof.
  intros w run. split; [reflexivity|]. split; [exact three_columns_wf|].
  split; [reflexivity|]. split; [reflexivity|].
  destruct (apply_mapping_last_column_wins ["x"; "y"] merge_a_b 0
              three_columns w eq_refl three_columns_wf eq_refl eq_refl)
    as (m & mapped_df & Hret & Hobj & Hsrc & _ & _ & Hlast & Hidx & _).
  exists m, mapped_df.
  split; [exact Hret|]. split; [exact Hobj|]. split; [exact Hsrc|]. split.
  - apply (Hlast ["a"] "b" ["c"] eq_refl); [discriminate|].
    apply Forall_cons_2; [discriminate|apply Forall_nil_2].
  - apply Hidx. exists "b". split; [set_solver|discriminate].
Defined.

(** * Further properties of the helpers and of the tabs *)

Section further_properties.
Context {DB : Type} {supabase : Supabase DB}.
Implicit Types (w : world (DB:=DB)) (df : pd.DataFrame).

Ltac py_step :=
  cbv beta iota zeta delta
    [bind ret lift deref alloc store st_show st_info st_success st_error
     st_warning len_obj columns_obj getitem_obj setitem_obj dropna_obj
     head_obj];
  cbn [objects db wire screen fst snd].

(** ** The helpers *)

(** X1: [insert_record] sends the one record in a single [insert], shows
    nothing, never raises, and answers [True] with the fixed text when the
    store answered, [False] with the store's message otherwise. *)
Theorem insert_record_contract table_name data w :
  let q := Insert table_name (One data) in
  let run := insert_record table_name data w in
  wire run.2 = wire w ++ [q] ∧
  db run.2 = (execute q (db w)).2 ∧
  screen run.2 = screen w ∧
  objects run.2 = objects w ∧
  run.1 = Returned
            match (execute q (db w)).1 with
            | inr _ => (true, "Record inserted successfully!")
            | inl e => (false, "Error inserting record: " +:+ e)
            end.
Proof.
  intros q run. unfold run, insert_record, try_except, bind, run_query, ret.
  fold q. by destruct (execute q (db w)) as [[e|rows] d'].
Qed.

(** X2: [update_record] and [delete_record] each send one query, filtered
    on the given column and value, show nothing and never raise; when the
    store raises they answer [False] with its message after the prefix of
    their own. *)
Theorem update_delete_contract table_name record_id id_column data w :
  let qu := Update table_name data id_column record_id in
  let qd := Delete table_name id_column record_id in
  let upd := update_record table_name record_id id_column data w in
  let del := delete_record table_name record_id id_column w in
  (wire upd.2 = wire w ++ [qu] ∧ db upd.2 = (execute qu (db w)).2 ∧
   screen upd.2 = screen w ∧
   upd.1 = Returned
             match (execute qu (db w)).1 with
             | inr _ => (true, "Record updated successfully!")
             | inl e => (false, "Error updating record: " +:+ e)
             end) ∧
  (wire del.2 = wire w ++ [qd] ∧ db del.2 = (execute qd (db w)).2 ∧
   screen del.2 = screen w ∧
   del.1 = Returned
             match (execute qd (db w)).1 with
             | inr _ => (true, "Record deleted successfully!")
             | inl e => (false, "Error deleting record: " +:+ e)
             end).
Proof.
  intros qu qd upd del. split.
  - unfold upd, update_record, try_except, bind, run_query, ret. fold qu.
    by destruct (execute qu (db w)) as [[e|rows] d'].
  - unfold del, delete_record, try_except, bind, run_query, ret. fold qd.
    by destruct (execute qd (db w)) as [[e|rows] d'].
Qed.

(** X3: [get_table_columns] reads one row and answers with the keys of
    that row, in their order.  A table without rows and a failed query
    both give the empty list; only the failure puts a notice on screen. *)
Theorem get_table_columns_contract table_name w :
  let q := Select table_name 1 in
  let run := get_table_columns table_name w in
  wire run.2 = wire w ++ [q] ∧
  objects run.2 = objects w ∧
  match (execute q (db w)).1 with
  | inr (row :: _) => run.1 = Returned (keys row) ∧ screen run.2 = screen w
  | inr [] => run.1 = Returned [] ∧ screen run.2 = screen w
  | inl e =>
      run.1 = Returned [] ∧
      screen run.2 =
        screen w ++ [Show Error (Plain ("Error fetching columns: " +:+ e))]
  end.
Proof.
  intros q run. unfold run. rewrite get_table_columns_run. fold q.
  by destruct (execute q (db w)).1 as [e|[|row rest]].
Qed.

(** X4: on a table that has no row yet the Add Record tab cannot learn the
    columns: it shows its error and sends nothing but the query for the
    columns, whatever was typed and even when the form is submitted. *)
Theorem add_record_tab_needs_a_row table_name typed submitted w :
  (execute (Select table_name 1) (db w)).1 = inr [] →
  let run := add_record_tab table_name typed submitted w in
  run.1 = Returned () ∧
  wire run.2 = wire w ++ [Select table_name 1] ∧
  screen run.2 =
    screen w ++
    [Show Error
       (Plain "Could not retrieve table columns. Please check if the table exists.")].
Proof.
  intros Hq run. unfold run, add_record_tab, bind.
  rewrite get_table_columns_run, Hq. by py_step.
Qed.

(** ** The forms, field by field *)

Lemma foldl_dict_set_skip {A} (skip : string → bool) (g : string → A)
    (cols : list string) (acc : list (string * A)) :
  NoDup (acc.*1 ++ cols) →
  foldl (λ d col, if skip col then d else dict_set col (g col) d) acc cols
  = acc ++ ((λ c, (c, g c)) <$> filter (λ c, skip c = false) cols).
Proof.
  revert acc. induction cols as [|col cols IH]; intros acc Hnd; simpl.
  - by rewrite app_nil_r.
  - assert (NoDup (acc.*1 ++ cols)) as Hnd'.
    { apply NoDup_app in Hnd as (H1 & H2 & H3%NoDup_cons).
      apply NoDup_app. split_and!; [done| |tauto].
      intros x Hx Hin. apply (H2 x Hx). by right. }
    destruct (skip col) eqn:Hskip.
    + rewrite filter_cons_False by congruence. by apply IH.
    + rewrite filter_cons_True by done. rewrite dict_set_fresh.
      * rewrite IH; [by rewrite fmap_cons, <- (assoc_L (++))|].
        rewrite fmap_app. simpl. by rewrite <- (assoc_L (++)).
      * apply NoDup_app in Hnd as (_ & H2 & _).
        intros Hin. apply (H2 col Hin). by left.
Qed.

(** X5: with distinct column names, a submitted Add form sends exactly the
    columns that are not auto-generated and hold some text, each with its
    text, in the order of the table's columns. *)
Theorem add_form_sends_filled_columns table_name columns typed w :
  NoDup columns →
  let fields :=
    (λ c, (c, typed c)) <$>
      filter (λ c, typed c ≠ "" ∧ lower c ∉ auto_generated) columns in
  add_clean_data (add_record_form columns typed) = fields ∧
  wire (add_record_submit table_name (add_record_form columns typed) w).2 =
    wire w ++ match fields with
              | [] => []
              | _ :: _ => [Insert table_name (One (as_record fields))]
              end.
Proof.
  intros Hnd fields.
  assert (add_clean_data (add_record_form columns typed) = fields) as Hfields.
  { unfold add_clean_data, add_record_form, fields.
    rewrite (foldl_dict_set_skip
               (λ col, bool_decide (lower col ∈ auto_generated)) typed)
      by done.
    rewrite app_nil_l.
    rewrite (filter_fmap_comm _ _
               (λ c, typed c ≠ "" ∧ lower c ∉ auto_generated))
      by by apply Forall_true.
    f_equal. rewrite list_filter_filter. apply list_filter_iff.
    intros c. rewrite bool_decide_eq_false. tauto. }
  split; [done|].
  unfold add_record_submit. rewrite Hfields.
  destruct fields as [|kv rest].
  - simpl. by rewrite app_nil_r.
  - rewrite bind_wire by (intros; apply report_wire).
    apply insert_record_wire.
Qed.

(** X6: with distinct column names, a submitted Update form sends exactly
    the columns other than the id column that hold some text, each with
    its text, in column order, in one [update] filtered on the id column
    and the chosen record. *)
Theorem update_form_sends_filled_columns
    table_name columns typed record_id id_column w :
  NoDup columns →
  let fields :=
    (λ c, (c, typed c)) <$>
      filter (λ c, typed c ≠ "" ∧ c ≠ id_column) columns in
  update_clean_data id_column (update_record_form columns id_column typed)
    = fields ∧
  wire (update_record_submit table_name record_id id_column
          (update_record_form columns id_column typed) w).2 =
    wire w ++ match fields with
              | [] => []
              | _ :: _ =>
                  [Update table_name (as_record fields) id_column record_id]
              end.
Proof.
  intros Hnd fields.
  assert (update_clean_data id_column
            (update_record_form columns id_column typed) = fields) as Hfields.
  { unfold update_clean_data, update_record_form, fields.
    rewrite (foldl_dict_set_skip (λ col, bool_decide (col = id_column)) typed)
      by done.
    rewrite app_nil_l.
    rewrite (filter_fmap_comm _ _ (λ c, typed c ≠ "" ∧ c ≠ id_column))
      by by apply Forall_true.
    f_equal. rewrite list_filter_filter. apply list_filter_iff.
    intros c. rewrite bool_decide_eq_false. tauto. }
  split; [done|].
  unfold update_record_submit. rewrite Hfields.
  destruct fields as [|kv rest].
  - simpl. by rewrite app_nil_r.
  - rewrite bind_wire by (intros; apply report_wire).
    apply update_record_wire.
Qed.

(** ** The configuration *)

(** X17: [validate_config] accepts exactly when both settings are present
    and not empty; a variable set to the empty string counts as missing.
    Its message is one of two fixed texts. *)
Theorem validate_config_accepts_nonempty_settings url key :
  ((validate_config url key).1 = true ↔
     ∃ u k, url = Some u ∧ key = Some k ∧ u ≠ "" ∧ k ≠ "") ∧
  (validate_config url key = (true, "Configuration valid") ∨
   validate_config url key =
     (false, "Missing Supabase credentials. Please set SUPABASE_URL and SUPABASE_KEY in .env file")).
Proof.
  split; [split|].
  - unfold validate_config, falsy. intros H.
    destruct url as [u|], key as [k|]; simpl in H; try done;
      repeat case_bool_decide; simpl in H; try done.
    by exists u, k.
  - intros (u & k & -> & -> & Hu & Hk). unfold validate_config, falsy.
    by rewrite !bool_decide_eq_false_2.
  - unfold validate_config. destruct (falsy url || falsy key); auto.
Qed.

(** ** Frames made from the store's answer *)


Lemma filter_every {A} (P : A → Prop) `{∀ x, Decision (P x)} (l : list A) :
  Forall P l → filter P l = l.
Proof.
  induction 1 as [|x l Hx _ IH]; [done|].
  by rewrite filter_cons_True, IH.
Qed.


Lemma remove_dups_nil (l : list string) : remove_dups l = [] → l = [].
Proof.
  intros H. destruct l as [|x l]; [done|].
  assert (x ∈ remove_dups (x :: l)) as Hin
    by (apply elem_of_remove_dups; by left).
  rewrite H in Hin. by apply not_elem_of_nil in Hin.
Qed.



Lemma union_keys_nil seen rs :
  pd.union_keys seen rs = [] ↔ seen = [] ∧ Forall (λ r : record, r = []) rs.
Proof.
  revert seen. induction rs as [|r rs IH]; intros seen; simpl.
  - split; [by intros ->|by intros [-> _]].
  - rewrite IH. split.
    + intros [[-> Hr]%app_eq_nil Hrs]. split; [done|].
      apply Forall_cons_2; [|done].
      apply remove_dups_nil in Hr.
      rewrite (filter_every (λ k, k ∉ [])) in Hr
        by (apply Forall_true; intros k; apply not_elem_of_nil).
      by apply fmap_nil_inv in Hr.
    + intros [-> [-> Hrs]%Forall_cons]. done.
Qed.




(** X16: [get_table_data] never raises, and the frame it returns has one
    row per record answered.  That frame counts as empty, which is what
    the View, Update and Delete tabs test, exactly when the query failed,
    answered no record, or answered only records without any field. *)
Theorem get_table_data_empty_iff table_name limit w :
  ∃ df,
    (get_table_data table_name limit w).1 = Returned df ∧
    pd.len df = match (execute (Select table_name limit) (db w)).1 with
                | inr data => length data
                | inl _ => 0
                end ∧
    (pd.empty df = true ↔
       match (execute (Select table_name limit) (db w)).1 with
       | inr data => Forall (λ r : record, r = []) data
       | inl _ => True
       end).
Proof.
  rewrite get_table_data_run.
  destruct (execute (Select table_name limit) (db w)).1 as [e|[|r data]];
    simpl.
  - by exists pd.DataFrame_new.
  - exists pd.DataFrame_new. by split_and!.
  - exists (pd.DataFrame_of_records (r :: data)).
    split; [done|]. split.
    + unfold pd.len, pd.DataFrame_of_records. simpl.
      by rewrite length_imap.
    + unfold pd.empty. rewrite orb_true_iff, !bool_decide_eq_true.
      unfold pd.DataFrame_of_records at 2. simpl.
      split.
      * intros [Hcols|?]; [|done].
        by apply (union_keys_nil [] (r :: data)) in Hcols as [_ ?].
      * intros Hall. left.
        by apply (union_keys_nil [] (r :: data)).
Qed.

(** ** The cleaning options, once more *)

Lemma held_limit_bounds entry n : 1 ≤ n → 1 ≤ held_limit entry n ≤ n.
Proof.
  intros Hn. unfold held_limit. destruct entry as [k|]; [|lia].
  case_bool_decide; lia.
Qed.

Lemma held_limit_again entry n :
  held_limit entry (held_limit entry n) = held_limit entry n.
Proof.
  unfold held_limit. destruct entry as [k|]; [|done].
  destruct (decide (1 ≤ k ≤ n)) as [Hk|Hk].
  - rewrite (bool_decide_eq_true_2 (1 ≤ k ≤ n)) by done.
    rewrite bool_decide_eq_true_2; [done|lia].
  - rewrite (bool_decide_eq_false_2 (1 ≤ k ≤ n)) by done.
    by rewrite bool_decide_eq_false_2.
Qed.

Lemma head_all n df : pd.len df ≤ n → pd.head n df = df.
Proof.
  destruct df as [cols rows]. unfold pd.head, pd.len. simpl. intros Hn.
  by rewrite take_ge.
Qed.

Lemma Forall_sublist {A} (P : A → Prop) (l1 l2 : list A) :
  l1 `sublist_of` l2 → Forall P l2 → Forall P l1.
Proof.
  induction 1 as [|x l1 l2 _ IH|x l1 l2 _ IH]; [done|..];
    intros [Hx Hl]%Forall_cons; [apply Forall_cons_2|]; auto.
Qed.

(** Keeping some of the rows of a well-formed frame, in order, gives a
    well-formed frame. *)
Lemma wf_rows_kept df rows :
  rows `sublist_of` pd.body df → pd.wf df →
  pd.wf (pd.mkDataFrame (pd.columns df) rows).
Proof.
  intros Hsub [Hnd Hwidth Hidx]. split; simpl.
  - done.
  - by eapply Forall_sublist.
  - eapply sublist_NoDup; [exact Hidx|].
    unfold pd.index. simpl. by apply fmap_sublist.
Qed.

Lemma cleaned_frame_sublist wd df :
  pd.body (cleaned_frame wd df) `sublist_of` pd.body df.
Proof.
  unfold cleaned_frame. destruct (remove_empty wd); [|done].
  apply sublist_filter.
Qed.

Lemma dropna_complete df :
  Forall pd.complete (pd.body df) → pd.dropna df = df.
Proof.
  destruct df as [cols rows]. unfold pd.dropna. simpl. intros H.
  by rewrite filter_every.
Qed.

(** What the cleaning options hand on when some row is left. *)
Lemma clean_data_options_result wd r df w :
  objects w !! r = Some df →
  pd.len (cleaned_frame wd df) ≠ 0 →
  let cleaned := cleaned_frame wd df in
  let run := clean_data_options wd r w in
  ∃ out,
    run.1 = Returned out ∧
    objects run.2 !! out =
      Some (pd.head (held_limit (upload_limit_entry wd) (pd.len cleaned)) cleaned) ∧
    wire run.2 = wire w ∧ db run.2 = db w.
Proof.
  intros Hr Hlen cleaned run. unfold run.
  rewrite (clean_data_options_run _ _ _ _ Hr). fold cleaned.
  rewrite bool_decide_eq_false_2 by (unfold cleaned; lia).
  eexists. split; [done|]. cbn [snd objects wire db].
  split; [apply lookup_alloc|]. by destruct (remove_empty wd).
Qed.


(** X11: with "Remove rows with empty values" ticked, no record of the
    frame handed on has a missing field. *)
Theorem cleaned_rows_have_no_missing_field wd r df w :
  objects w !! r = Some df →
  pd.wf df →
  remove_empty wd = true →
  pd.len (pd.dropna df) ≠ 0 →
  let run := clean_data_options wd r w in
  ∃ out df_out,
    run.1 = Returned out ∧
    objects run.2 !! out = Some df_out ∧
    Forall (λ rec : record, Forall (λ kv, isna kv.2 = false) rec)
      (pd.to_dict_records df_out).
Proof.
  intros Hr Hwf Hon Hlen run.
  assert (cleaned_frame wd df = pd.dropna df) as Hc
    by (unfold cleaned_frame; by rewrite Hon).
  destruct (clean_data_options_result wd r df w Hr) as (out & Hret & Hobj & _);
    [by rewrite Hc|].
  rewrite Hc in Hobj. eexists out, _. split; [exact Hret|].
  split; [exact Hobj|].
  unfold pd.to_dict_records, pd.head. cbn [pd.columns pd.body].
  rewrite fmap_take. apply Forall_take.
  change (Forall (λ rec : record, Forall (λ kv, isna kv.2 = false) rec)
            (pd.to_dict_records (pd.dropna df))).
  rewrite (dropna_records _ Hwf). apply Forall_forall.
  by intros rec [? _]%list_elem_of_filter.
Qed.

(** X12: the cleaning options keep a frame well formed: the frame handed
    on has the columns of the one they start from, rows as wide as the
    header, and row labels that are still distinct. *)
Theorem cleaning_keeps_the_frame_well_formed wd r df w :
  objects w !! r = Some df →
  pd.wf df →
  pd.len (cleaned_frame wd df) ≠ 0 →
  let run := clean_data_options wd r w in
  ∃ out df_out,
    run.1 = Returned out ∧
    objects run.2 !! out = Some df_out ∧
    pd.columns df_out = pd.columns df ∧
    pd.index df_out `sublist_of` pd.index df ∧
    pd.wf df_out.
Proof.
  intros Hr Hwf Hlen run.
  destruct (clean_data_options_result wd r df w Hr Hlen)
    as (out & Hret & Hobj & _).
  eexists out, _. split; [exact Hret|]. split; [exact Hobj|].
  assert (take (held_limit (upload_limit_entry wd)
                  (pd.len (cleaned_frame wd df)))
            (pd.body (cleaned_frame wd df)) `sublist_of` pd.body df) as Hsub.
  { etrans; [apply sublist_take|apply cleaned_frame_sublist]. }
  unfold pd.head. rewrite cleaned_frame_columns. split_and!.
  - done.
  - unfold pd.index. simpl. by apply fmap_sublist.
  - by apply wf_rows_kept.
Qed.

(** X13: cleaning what the cleaning options handed on, with the same
    settings, changes nothing: the second frame equals the first. *)
Theorem cleaning_twice_changes_nothing wd r df w :
  objects w !! r = Some df →
  pd.len (cleaned_frame wd df) ≠ 0 →
  let run1 := clean_data_options wd r w in
  ∃ out df_out,
    run1.1 = Returned out ∧
    objects run1.2 !! out = Some df_out ∧
    let run2 := clean_data_options wd out run1.2 in
    ∃ out2, run2.1 = Returned out2 ∧ objects run2.2 !! out2 = Some df_out.
Proof.
  intros Hr Hlen run1.
  destruct (clean_data_options_result wd r df w Hr Hlen)
    as (out & Hret & Hobj & _).
  fold run1 in Hret, Hobj.
  set (cleaned := cleaned_frame wd df) in *.
  set (k := held_limit (upload_limit_entry wd) (pd.len cleaned)) in *.
  pose proof (held_limit_bounds (upload_limit_entry wd) (pd.len cleaned)
                ltac:(lia)) as Hk. fold k in Hk.
  assert (pd.len (pd.head k cleaned) = k) as Hlenk.
  { unfold pd.len, pd.head. simpl. rewrite length_take.
    unfold pd.len in Hk. lia. }
  assert (cleaned_frame wd (pd.head k cleaned) = pd.head k cleaned) as Hfix.
  { unfold cleaned_frame. destruct (remove_empty wd) eqn:Hon; [|done].
    apply dropna_complete. simpl. apply Forall_take.
    unfold cleaned, cleaned_frame. rewrite Hon. simpl.
    apply Forall_forall. by intros row [? _]%list_elem_of_filter. }
  exists out, (pd.head k cleaned). split; [exact Hret|]. split; [exact Hobj|].
  intros run2.
  destruct (clean_data_options_result wd out (pd.head k cleaned) run1.2 Hobj)
    as (out2 & Hret2 & Hobj2 & _); [rewrite Hfix; lia|].
  exists out2. split; [exact Hret2|]. fold run2 in Hobj2.
  rewrite Hobj2, Hfix, Hlenk. f_equal.
  unfold k at 1. rewrite held_limit_again. fold k.
  apply head_all. lia.
Qed.

(** ** Steps of the upload tab that leave the store alone *)

Lemma quiet_ret {A} (a : A) : quiet (DB:=DB) (ret a).
Proof. by intros w. Qed.

Lemma quiet_raise {A} e : quiet (DB:=DB) (raise (A:=A) e).
Proof. by intros w. Qed.

Lemma quiet_lift {A} (o : outcome A) : quiet (DB:=DB) (lift o).
Proof. by intros w. Qed.

Lemma quiet_bind {A B} (m : py (DB:=DB) A) (k : A → py (DB:=DB) B) :
  quiet m → (∀ a, quiet (k a)) → quiet (bind m k).
Proof.
  intros Hm Hk w. unfold bind. specialize (Hm w).
  destruct (m w) as [[a|e] w']; simpl in Hm; [|done].
  destruct (Hk a w') as [-> ->]. done.
Qed.

Lemma quiet_st_show l t : quiet (DB:=DB) (st_show l t).
Proof. by intros w. Qed.

Lemma quiet_alloc df : quiet (DB:=DB) (alloc df).
Proof. by intros w. Qed.

Lemma quiet_deref r : quiet (DB:=DB) (deref r).
Proof. intros w. unfold deref. by destruct (objects w !! r). Qed.

Lemma quiet_store r df : quiet (DB:=DB) (store r df).
Proof. by intros w. Qed.

Lemma quiet_for_each {A} (xs : list A) (body : A → py (DB:=DB) ()) :
  (∀ x, quiet (body x)) → quiet (for_each xs body).
Proof.
  intros Hbody. induction xs as [|x xs IH]; simpl.
  - apply quiet_ret.
  - apply quiet_bind; [apply Hbody|]. by intros _.
Qed.

Lemma quiet_number_input lo hi v entry : quiet (DB:=DB) (number_input lo hi v entry).
Proof.
  intros w. unfold number_input.
  repeat case_bool_decide; try done. destruct entry as [n|]; [|done].
  by case_bool_decide.
Qed.

Lemma quiet_map_columns_manually wd table_columns file_columns r :
  quiet (DB:=DB) (map_columns_manually wd table_columns file_columns r).
Proof.
  unfold map_columns_manually.
  destruct (map_columns wd); [|apply quiet_ret].
  destruct (apply_mapping wd); [|apply quiet_ret].
  apply quiet_bind.
  - unfold apply_column_mapping.
    apply quiet_bind; [apply quiet_alloc|]. intros mapped_df.
    apply quiet_bind; [|intros; apply quiet_ret].
    apply quiet_for_each. intros kv. case_bool_decide; [apply quiet_ret|].
    apply quiet_bind.
    + unfold getitem_obj.
      apply quiet_bind; [apply quiet_deref|]. intros; apply quiet_lift.
    + intros s. unfold setitem_obj.
      apply quiet_bind; [apply quiet_deref|]. intros df.
      apply quiet_bind; [apply quiet_lift|]. intros; apply quiet_store.
  - intros mapped_df.
    apply quiet_bind; [apply quiet_st_show|]. intros; apply quiet_ret.
Qed.

Lemma quiet_clean_data_options wd r :
  quiet (DB:=DB) (clean_data_options wd r).
Proof.
  unfold clean_data_options, dropna_obj, len_obj, head_obj.
  apply quiet_bind.
  - destruct (remove_empty wd); [|apply quiet_ret].
    apply quiet_bind.
    { apply quiet_bind; [apply quiet_deref|]. intros; apply quiet_alloc. }
    intros cleaned. apply quiet_bind.
    { apply quiet_bind; [apply quiet_deref|]. intros; apply quiet_ret. }
    intros n. apply quiet_bind; [apply quiet_st_show|].
    intros; apply quiet_ret.
  - intros df_upload. apply quiet_bind.
    { apply quiet_bind; [apply quiet_deref|]. intros; apply quiet_ret. }
    intros n. apply quiet_bind; [apply quiet_number_input|].
    intros k. apply quiet_bind; [apply quiet_deref|]. intros; apply quiet_alloc.
Qed.

(** The Upload button never raises; it sends one batch to the table, or
    nothing. *)
Lemma upload_button_run wd table_name r w :
  (upload_button wd table_name r w).1 = Returned () ∧
  (wire (upload_button wd table_name r w).2 = wire w ∨
   ∃ records,
     upload wd = true ∧
     wire (upload_button wd table_name r w).2
       = wire w ++ [Insert table_name (Many records)]).
Proof.
  unfold upload_button. destruct (upload wd); [|by split; [|left]].
  unfold bulk_insert_records, try_except, bind, deref.
  destruct (objects w !! r) as [df|]; simpl.
  - unfold run_query. destruct (execute _ (db w)) as [[e|data] d']; simpl;
      (split; [done|]); right; by eexists.
  - by split; [|left].
Qed.

(** ** The upload tab as a whole *)

(** X7: one run of the upload tab never raises.  When the file cannot be
    read it shows the reason and sends nothing; otherwise it sends the
    query for the table's columns and after it at most one batch, to the
    table named, and only when "Upload" was pressed.  It never updates or
    deletes. *)
Theorem bulk_upload_sends_at_most_one_batch table_name parsed wd w :
  let run := bulk_upload table_name parsed wd w in
  run.1 = Returned () ∧
  match parsed with
  | Raised e =>
      wire run.2 = wire w ∧
      objects run.2 = objects w ∧
      screen run.2 = screen w ++ [Show Error (Plain ("Error reading file: " +:+ e))]
  | Returned _ =>
      wire run.2 = wire w ++ [Select table_name 1] ∨
      ∃ records,
        upload wd = true ∧
        wire run.2 =
          wire w ++ [Select table_name 1; Insert table_name (Many records)]
  end.
Proof.
  intros run. unfold run, bulk_upload, try_except.
  destruct parsed as [content|e]; [|by py_step].
  py_step. rewrite lookup_alloc. py_step. rewrite get_table_columns_run.
  py_step.
  destruct (execute (Select table_name 1) (db w)).1 as [e|[|row rest]];
    py_step; try (split; [done|by left]).
  destruct (keys row) as [|c cs]; py_step; [split; [done|by left]|].
  rewrite lookup_alloc. py_step. rewrite show_columns_run. py_step.
  match goal with
  | |- context [map_columns_manually ?a ?b ?c ?d ?e] =>
      pose proof (quiet_map_columns_manually a b c d e) as [Hq1 _];
      destruct (map_columns_manually a b c d e) as [[r1|e1] w1]
  end; cbn [fst snd wire] in Hq1; py_step; [|split; [done|by left]].
  match goal with
  | |- context [clean_data_options ?a ?b ?c] =>
      pose proof (quiet_clean_data_options a b c) as [Hq2 _];
      destruct (clean_data_options a b c) as [[r2|e2] w2]
  end; cbn [fst snd wire] in Hq2; py_step;
    [|split; [done|left; congruence]].
  destruct (upload_button_run wd table_name r2 w2) as [Hret Hwire].
  destruct (upload_button wd table_name r2 w2) as [[[]|e3] w3];
    cbn [fst snd] in *; [|done].
  split; [done|]. destruct Hwire as [Hwire|(records & Hup & Hwire)].
  - left. congruence.
  - right. exists records. split; [done|].
    rewrite Hwire, Hq2, Hq1. by rewrite <- (assoc_L (++)).
Qed.

(** X8: when the table's columns cannot be read (the table has no row, or
    the query failed), the upload tab stops at its error notice: whatever
    the widgets hold, nothing is uploaded. *)
Theorem bulk_upload_needs_table_columns table_name content wd w :
  (execute (Select table_name 1) (db w)).1 = inr [] ∨
  (∃ e, (execute (Select table_name 1) (db w)).1 = inl e) →
  let run := bulk_upload table_name (Returned content) wd w in
  run.1 = Returned () ∧
  wire run.2 = wire w ++ [Select table_name 1] ∧
  last (screen run.2)
    = Some (Show Error (Plain "Could not retrieve table columns")).
Proof.
  intros Hq run. unfold run, bulk_upload, try_except.
  py_step. rewrite lookup_alloc. py_step. rewrite get_table_columns_run.
  py_step.
  destruct Hq as [->|[e ->]]; py_step; by rewrite last_snoc.
Qed.


(** ** The mapped frame *)

Lemma selectbox_in_options options picked :
  options ≠ [] → selectbox options picked ∈ options.
Proof.
  intros Hne. unfold selectbox.
  destruct (options !! picked) as [x|] eqn:E; simpl.
  - by eapply list_elem_of_lookup_2.
  - destruct options as [|x options]; [done|]. simpl. by left.
Qed.

(** X14: "Apply Mapping" on a well-formed frame gives a well-formed frame
    whose columns are columns of the table: a selectbox offers nothing
    else, and "Skip" itself never becomes a column.  Nothing is sent, and
    the one notice shown is the confirmation. *)
Theorem mapped_columns_are_table_columns table_columns wd r df w :
  objects w !! r = Some df →
  pd.wf df →
  map_columns wd = true →
  apply_mapping wd = true →
  let run := map_columns_manually wd table_columns (pd.columns df) r w in
  ∃ m mapped_df,
    run.1 = Returned m ∧
    objects run.2 !! m = Some mapped_df ∧
    pd.wf mapped_df ∧
    Forall (λ c, c ∈ table_columns ∧ c ≠ "Skip") (pd.columns mapped_df) ∧
    wire run.2 = wire w ∧
    screen run.2 = screen w ++ [Show Success (Plain "Column mapping applied!")].
Proof.
  intros Hr [Hnd Hwidth Hidx] Hmap Happly run.
  pose proof (column_mapping_distinct table_columns _ (chosen wd) Hnd) as Hcm.
  destruct (mapped_frame_inv df
              ((λ f, (f, selectbox ("Skip" :: table_columns) (chosen wd f)))
                 <$> pd.columns df) [] pd.DataFrame_new Hwidth)
    as (mapped_df & Hrun & Hinv).
  { apply Forall_fmap, Forall_forall. by intros f Hf. }
  { split; try done; simpl.
    - apply NoDup_nil_2.
    - by apply Forall_nil_2.
    - intros c. split; [by intros ?%not_elem_of_nil|].
      by intros [_ [f ?%not_elem_of_nil]].
    - by intros c ?%not_elem_of_nil. }
  rewrite app_nil_l in Hinv. destruct Hinv as [Hnd' Hw' He' Hi' Hc' Hs'].
  exists (length (objects w)), mapped_df.
  unfold run, map_columns_manually. rewrite Hmap, Happly, Hcm.
  assert (∀ k, bind (apply_column_mapping
                       ((λ f, (f, selectbox ("Skip" :: table_columns) (chosen wd f)))
                          <$> pd.columns df) r) k w
               = k (length (objects w))
                   (mkWorld (db w) (wire w) (screen w) (objects w ++ [mapped_df])))
    as -> by (intros k; unfold bind;
              by rewrite (apply_column_mapping_run _ _ _ _ _ Hr Hrun)).
  py_step.
  split_and!; try done.
  - apply lookup_alloc.
  - split; [done..|].
    destruct (decide (pd.columns mapped_df = [])) as [Hnil|Hne].
    + unfold pd.index. rewrite (He' Hnil). apply NoDup_nil_2.
    + by rewrite (Hi' Hne).
  - apply Forall_forall. intros c [Hskip [f Hf]]%Hc'. split; [|done].
    apply list_elem_of_fmap in Hf as (f' & [= -> Hc] & _).
    pose proof (selectbox_in_options ("Skip" :: table_columns) (chosen wd f')
                  ltac:(done)) as Hin.
    rewrite <- Hc in Hin. apply elem_of_cons in Hin as [?|?]; done.
Qed.

End further_properties.

(** ** The further statements at work *)

Lemma add_record_tab_needs_a_row_witness :
  let w := fresh_run empty_customers_db in
  let run := add_record_tab "customers" typed_but_email true w in
  (execute (Select "customers" 1) (db w)).1 = inr [] ∧
  run.1 = Returned () ∧
  wire run.2 = [Select "customers" 1] ∧
  screen run.2 =
    [Show Error
       (Plain "Could not retrieve table columns. Please check if the table exists.")].
Proof.
  intros w run. split; [reflexivity|].
  exact (add_record_tab_needs_a_row "customers" typed_but_email true w eq_refl).
Defined.

Lemma four_names_distinct : NoDup ["id"; "name"; "email"; "Created_At"].
Proof. repeat (apply NoDup_cons_2; [set_solver|]). apply NoDup_nil_2. Defined.

Lemma add_form_sends_filled_columns_witness :
  let columns := ["id"; "name"; "email"; "Created_At"] in
  let w := fresh_run customers_db in
  NoDup columns ∧
  add_clean_data (add_record_form columns typed_but_email) = [("name", "v")] ∧
  wire (add_record_submit "customers"
          (add_record_form columns typed_but_email) w).2
    = [Insert "customers" (One [("name", VStr "v")])].
Proof.
  intros columns w. split; [exact four_names_distinct|].
  exact (add_form_sends_filled_columns "customers" columns typed_but_email w
           four_names_distinct).
Defined.

Lemma update_form_sends_filled_columns_witness :
  let columns := ["id"; "name"; "email"; "Created_At"] in
  let w := fresh_run customers_db in
  NoDup columns ∧
  update_clean_data "id" (update_record_form columns "id" typed_but_email)
    = [("name", "v"); ("Created_At", "v")] ∧
  wire (update_record_submit "customers" (VInt 7) "id"
          (update_record_form columns "id" typed_but_email) w).2
    = [Update "customers" [("name", VStr "v"); ("Created_At", VStr "v")]
         "id" (VInt 7)].
Proof.
  intros columns w. split; [exact four_names_distinct|].
  exact (update_form_sends_filled_columns "customers" columns typed_but_email
           (VInt 7) "id" w four_names_distinct).
Defined.

Lemma bulk_upload_needs_table_columns_witness :
  let w := fresh_run empty_customers_db in
  let run := bulk_upload "customers" (Returned customers_file) plain_upload w in
  ((execute (Select "customers" 1) (db w)).1 = inr [] ∨
   (∃ e, (execute (Select "customers" 1) (db w)).1 = inl e)) ∧
  run.1 = Returned () ∧
  wire run.2 = [Select "customers" 1] ∧
  last (screen run.2)
    = Some (Show Error (Plain "Could not retrieve table columns")).
Proof.
  intros w run. split; [left; reflexivity|].
  exact (bulk_upload_needs_table_columns "customers" customers_file
           plain_upload w (or_introl eq_refl)).
Defined.



Lemma cleaned_rows_have_no_missing_field_witness :
  let w := mkWorld customers_db [] [] [four_records] in
  let run := clean_data_options clean_two 0 w in
  objects w !! 0 = Some four_records ∧
  pd.wf four_records ∧
  remove_empty clean_two = true ∧
  pd.len (pd.dropna four_records) ≠ 0 ∧
  ∃ out df_out,
    run.1 = Returned out ∧
    objects run.2 !! out = Some df_out ∧
    Forall (λ rec : record, Forall (λ kv, isna kv.2 = false) rec)
      (pd.to_dict_records df_out).
Proof.
  intros w run. split; [reflexivity|]. split; [exact four_records_wf|].
  split; [reflexivity|]. split; [discriminate|].
  exact (cleaned_rows_have_no_missing_field clean_two 0 four_records w eq_refl
           four_records_wf eq_refl ltac:(discriminate)).
Defined.

Lemma cleaning_keeps_the_frame_well_formed_witness :
  let w := mkWorld customers_db [] [] [four_records] in
  let run := clean_data_options clean_two 0 w in
  objects w !! 0 = Some four_records ∧
  pd.wf four_records ∧
  pd.len (cleaned_frame clean_two four_records) ≠ 0 ∧
  ∃ out df_out,
    run.1 = Returned out ∧
    objects run.2 !! out = Some df_out ∧
    pd.columns df_out = pd.columns four_records ∧
    pd.index df_out `sublist_of` pd.index four_records ∧
    pd.wf df_out.
Proof.
  intros w run. split; [reflexivity|]. split; [exact four_records_wf|].
  split; [discriminate|].
  exact (cleaning_keeps_the_frame_well_formed clean_two 0 four_records w
           eq_refl four_records_wf ltac:(discriminate)).
Defined.

Lemma cleaning_twice_changes_nothing_witness :
  let w := mkWorld customers_db [] [] [four_records] in
  let run1 := clean_data_options clean_two 0 w in
  objects w !! 0 = Some four_records ∧
  pd.len (cleaned_frame clean_two four_records) ≠ 0 ∧
  ∃ out df_out,
    run1.1 = Returned out ∧
    objects run1.2 !! out = Some df_out ∧
    let run2 := clean_data_options clean_two out run1.2 in
    ∃ out2, run2.1 = Returned out2 ∧ objects run2.2 !! out2 = Some df_out.
Proof.
  intros w run1. split; [reflexivity|]. split; [discriminate|].
  exact (cleaning_twice_changes_nothing clean_two 0 four_records w eq_refl
           ltac:(discriminate)).
Defined.

Lemma mapped_columns_are_table_columns_witness :
  let w := mkWorld customers_db [] [] [three_columns] in
  let run := map_columns_manually merge_a_b ["x"; "y"]
               (pd.columns three_columns) 0 w in
  objects w !! 0 = Some three_columns ∧
  pd.wf three_columns ∧
  map_columns merge_a_b = true ∧
  apply_mapping merge_a_b = true ∧
  ∃ m mapped_df,
    run.1 = Returned m ∧
    objects run.2 !! m = Some mapped_df ∧
    pd.wf mapped_df ∧
    Forall (λ c, c ∈ ["x"; "y"] ∧ c ≠ "Skip") (pd.columns mapped_df) ∧
    wire run.2 = wire w ∧
    screen run.2 = screen w ++ [Show Success (Plain "Column mapping applied!")].
Proof.
  intros w run. split; [reflexivity|]. split; [exact three_columns_wf|].
  split; [reflexivity|]. split; [reflexivity|].
  exact (mapped_columns_are_table_columns ["x"; "y"] merge_a_b 0 three_columns
           w eq_refl three_columns_wf eq_refl eq_refl).
Defined.


